(** * PyInstaller [building/osx.py]: the macOS application bundle target

    A shallow embedding of the class [BUNDLE] (constructor and [assemble])
    together with the parts of the Python runtime it leans on: [posixpath]
    string functions, [pathlib] pure paths, and a file system with
    directories, regular files and symbolic links on which [os.makedirs],
    [shutil.copy] and [Path.symlink_to] act.

    Layout: strings, [posixpath], [pathlib], the file system and its
    primitives, the [BUNDLE] object, the constructor, [assemble], and then
    the properties of the placement engine, the metadata writer and the
    signer. *)

From Stdlib Require Import String Ascii List ZArith Lia Bool.
From stdpp Require Import base option list gmap strings fin_maps.

Open Scope string_scope.
Open Scope list_scope.

(** ** Python [str] operations used by the module *)

Module Str.

(** [s.rfind(c)]: index of the last occurrence of [c], or [-1]. *)
Fixpoint rfind (s : string) (c : ascii) : Z :=
  match s with
  | EmptyString => (-1)%Z
  | String a r =>
      let i := rfind r c in
      if (0 <=? i)%Z then (i + 1)%Z
      else if Ascii.eqb a c then 0%Z else (-1)%Z
  end.

(** [s[n:]] and [s[:n]] for a non-negative [n]. *)
Fixpoint drop (n : nat) (s : string) : string :=
  match n, s with
  | O, _ => s
  | S n', String _ r => drop n' r
  | S _, EmptyString => EmptyString
  end.

Fixpoint take (n : nat) (s : string) : string :=
  match n, s with
  | O, _ => EmptyString
  | S n', String a r => String a (take n' r)
  | S _, EmptyString => EmptyString
  end.

(** [c in s] *)
Fixpoint contains (c : ascii) (s : string) : bool :=
  match s with
  | EmptyString => false
  | String a r => Ascii.eqb a c || contains c r
  end.

(** [s.split(sep)] for a one-character separator. *)
Fixpoint split (sep : ascii) (s : string) : list string :=
  match s with
  | EmptyString => [EmptyString]
  | String a r =>
      let l := split sep r in
      if Ascii.eqb a sep then EmptyString :: l
      else match l with
           | h :: t => String a h :: t
           | [] => [String a EmptyString]
           end
  end.

(** [s.lstrip(c)] *)
Fixpoint lstrip (c : ascii) (s : string) : string :=
  match s with
  | EmptyString => EmptyString
  | String a r => if Ascii.eqb a c then lstrip c r else s
  end.

(** [s.rstrip(c)] *)
Fixpoint rstrip (c : ascii) (s : string) : string :=
  match s with
  | EmptyString => EmptyString
  | String a r =>
      match rstrip c r with
      | EmptyString => if Ascii.eqb a c then EmptyString else String a EmptyString
      | r' => String a r'
      end
  end.

Definition startswith (c : ascii) (s : string) : bool :=
  match s with
  | String a _ => Ascii.eqb a c
  | EmptyString => false
  end.

Fixpoint endswith (c : ascii) (s : string) : bool :=
  match s with
  | EmptyString => false
  | String a EmptyString => Ascii.eqb a c
  | String _ r => endswith c r
  end.

(** [sep.join(l)] *)
Fixpoint join (sep : string) (l : list string) : string :=
  match l with
  | [] => EmptyString
  | [x] => x
  | x :: r => x +:+ sep +:+ join sep r
  end.

(** Truthiness of a string: [bool(s)]. *)
Definition nonempty (s : string) : bool :=
  match s with EmptyString => false | _ => true end.

End Str.

(** ** [posixpath]: the [os.path] of the target platform *)

Module posixpath.

Definition sep : ascii := "/"%char.
Definition extsep : ascii := "."%char.

(** [i = p.rfind('/') + 1; return p[i:]] *)
Definition basename (p : string) : string :=
  let i := (Str.rfind p sep + 1)%Z in
  Str.drop (Z.to_nat i) p.

(** [head = p[:i]; if head and head != '/'*len(head): head = head.rstrip('/')] *)
Definition dirname (p : string) : string :=
  let i := (Str.rfind p sep + 1)%Z in
  let head := Str.take (Z.to_nat i) p in
  if Str.nonempty head && Str.nonempty (Str.lstrip sep head)
  then Str.rstrip sep head else head.

Definition isabs (s : string) : bool := Str.startswith sep s.

(** One step of [join(a, *p)]. *)
Definition join2 (path b : string) : string :=
  if Str.startswith sep b then b
  else if negb (Str.nonempty path) || Str.endswith sep path then path +:+ b
  else path +:+ "/" +:+ b.

Definition join (a : string) (p : list string) : string :=
  fold_left join2 p a.

(** The [while] loop of [genericpath._splitext]: skip leading dots of the
    file name; [n] bounds the number of iterations by the distance between
    the two indices. *)
Fixpoint splitext_loop (n : nat) (p : string) (filenameIndex dotIndex : Z)
  : string * string :=
  match n with
  | O => (p, EmptyString)
  | S n' =>
      if (filenameIndex <? dotIndex)%Z then
        if negb (String.eqb (Str.take 1 (Str.drop (Z.to_nat filenameIndex) p)) ".")
        then (Str.take (Z.to_nat dotIndex) p, Str.drop (Z.to_nat dotIndex) p)
        else splitext_loop n' p (filenameIndex + 1)%Z dotIndex
      else (p, EmptyString)
  end.

Definition splitext (p : string) : string * string :=
  let sepIndex := Str.rfind p sep in
  let dotIndex := Str.rfind p extsep in
  if (sepIndex <? dotIndex)%Z then
    let filenameIndex := (sepIndex + 1)%Z in
    splitext_loop (Z.to_nat (dotIndex - filenameIndex)) p filenameIndex dotIndex
  else (p, EmptyString).

End posixpath.

(** ** [pathlib]: pure POSIX paths

    A path is its root (the empty string, one slash or two slashes) and the
    list of its components; parsing drops empty components and single dots
    and keeps double dots, as [pathlib] does. *)

Record Path := mkPath { p_root : string; p_tail : list string }.

Module pathlib.

(** [_PosixFlavour.splitroot] *)
Definition splitroot (part : string) : string * string :=
  if Str.startswith posixpath.sep part then
    let stripped := Str.lstrip posixpath.sep part in
    if Nat.eqb (String.length part - String.length stripped) 2
    then ("//", stripped) else ("/", stripped)
  else (EmptyString, part).

(** [Path(s)] *)
Definition of_str (s : string) : Path :=
  let '(root, rel) := splitroot s in
  mkPath root
    (filter (fun x => Str.nonempty x && negb (String.eqb x "."))
       (Str.split posixpath.sep rel)).

(** [p.parts]: the anchor, when there is one, comes first. *)
Definition parts (p : Path) : list string :=
  if Str.nonempty (p_root p) then p_root p :: p_tail p else p_tail p.

(** [p.name] *)
Definition name (p : Path) : string := List.last (p_tail p) EmptyString.

(** [p.parent]: a path without components is its own parent. *)
Definition parent (p : Path) : Path :=
  mkPath (p_root p) (List.removelast (p_tail p)).

(** [p.suffix] *)
Definition suffix (p : Path) : string :=
  let nm := name p in
  let i := Str.rfind nm "."%char in
  if (0 <? i)%Z && (i <? Z.of_nat (String.length nm) - 1)%Z
  then Str.drop (Z.to_nat i) nm else EmptyString.

(** [p.joinpath(q)]: an anchored [q] replaces [p]. *)
Definition joinpath (p q : Path) : Path :=
  if Str.nonempty (p_root q) then q
  else mkPath (p_root p) (p_tail p ++ p_tail q).

(** [str(p)] *)
Definition str (p : Path) : string :=
  match p_root p, p_tail p with
  | EmptyString, [] => "."
  | r, t => r +:+ Str.join "/" t
  end.

End pathlib.

(** [any(['.' in p for p in path.parent.parts])]: the dotted-segment test
    shared by the Frameworks flattening and the Resources skip. *)
Definition dotted_parent (p : Path) : bool :=
  existsb (Str.contains "."%char) (pathlib.parts (pathlib.parent p)).

(** ** The file system

    The store maps the component list of a canonical path (from the root
    directory, which always exists) to what lives there.  A relative path is
    taken from the root as well: the working directory is the root of the
    modelled store, so a path's root marker plays no part in a lookup.
    Symbolic-link targets are component lists resolved from the root. *)

Abbreviation fspath := (list string).

(** Values of a property list. *)
Inductive pvalue :=
| PBool (b : bool)
| PStr (s : string).

(** What a regular file holds: raw bytes, or a property list written by
    [plistlib.dump] (kept as the dictionary that was serialised). *)
Inductive content :=
| Bytes (s : string)
| Plist (d : gmap string pvalue).

Inductive node :=
| File (c : content)
| Dir
| Link (target : fspath).

Inductive errno := ENOENT | EEXIST | ENOTDIR | EISDIR | ELOOP.

(** Python exceptions.  [SystemExit] and [KeyboardInterrupt] derive from
    [BaseException] only; every other constructor is an [Exception]. *)
Inductive exn :=
| OSError (e : errno)
| SameFileError
| AttributeError (attr : string)
| TypeError
| OtherException (what : string)
| SystemExit (what : string)
| KeyboardInterrupt.

Definition is_Exception (e : exn) : bool :=
  match e with
  | SystemExit _ | KeyboardInterrupt => false
  | _ => true
  end.

Definition is_OSError (e : exn) : bool :=
  match e with
  | OSError _ | SameFileError => true
  | _ => false
  end.

Definition is_FileExistsError (e : exn) : bool :=
  match e with
  | OSError EEXIST => true
  | _ => false
  end.

Inductive level := INFO | WARNING.

Inductive logarg :=
| ArgStr (s : string)
| ArgExn (e : exn).

Record logrec := mkLog { lvl : level; fmt : string; fmt_args : list logarg }.

Record state := mkState {
  files : gmap fspath node;
  log : list logrec
}.

(** Result of walking a path. [Found q n]: the path names the object [n]
    stored at the canonical path [q] (a directory found at the root or
    through double dots is reported as [Dir]). [Missing q]: every component
    but the last resolved to a directory and nothing is stored for the last
    one, which would live at [q]. [Fail e]: the walk failed. *)
Inductive walk_result :=
| Found (q : fspath) (n : node)
| Missing (q : fspath)
| Fail (e : errno).

(** Bound on the number of symbolic links followed in one lookup
    (MAXSYMLINKS in Darwin's sys/param.h). *)
Definition MAXSYMLINKS : nat := 32.

(** Component-wise path resolution.  [cur] is the canonical path of the
    directory reached so far, [rest] what remains to be walked; [follow]
    says whether a link in final position is followed. *)
Fixpoint walk (fuel : nat) (fs : gmap fspath node) (follow : bool)
  : fspath -> fspath -> walk_result :=
  fix go (cur rest : fspath) {struct rest} : walk_result :=
    match rest with
    | [] => Found cur Dir
    | c :: r =>
        if String.eqb c ".." then go (removelast cur) r
        else
          let q := cur ++ [c] in
          match fs !! q with
          | None => match r with [] => Missing q | _ => Fail ENOENT end
          | Some Dir => go q r
          | Some (File x) =>
              match r with [] => Found q (File x) | _ => Fail ENOTDIR end
          | Some (Link t) =>
              match r, follow with
              | [], false => Found q (Link t)
              | _, _ =>
                  match fuel with
                  | O => Fail ELOOP
                  | S f => walk f fs follow [] (t ++ r)
                  end
              end
          end
    end.

Definition resolve (fs : gmap fspath node) (follow : bool) (p : fspath)
  : walk_result :=
  walk MAXSYMLINKS fs follow [] p.

(** [os.stat] (follows links) and [os.lstat] as observations of a store. *)
Definition stat (fs : gmap fspath node) (p : fspath) : option node :=
  match resolve fs true p with
  | Found _ n => Some n
  | _ => None
  end.

Definition lstat (fs : gmap fspath node) (p : fspath) : option node :=
  match resolve fs false p with
  | Found _ n => Some n
  | _ => None
  end.

Definition exists_ (fs : gmap fspath node) (p : fspath) : bool :=
  match stat fs p with Some _ => true | None => false end.

Definition is_dir (fs : gmap fspath node) (p : fspath) : bool :=
  match stat fs p with Some Dir => true | _ => false end.

(** Content read through a path, when it names a regular file. *)
Definition read_file (fs : gmap fspath node) (p : fspath) : option content :=
  match stat fs p with Some (File c) => Some c | _ => None end.

(** ** Computations: state that survives exceptions *)

Inductive outcome (A : Type) :=
| Ok (a : A)
| Raise (e : exn).
Arguments Ok {A} a.
Arguments Raise {A} e.

Definition M (A : Type) : Type := state -> outcome A * state.

Definition ret {A} (a : A) : M A := fun s => (Ok a, s).

Definition bind {A B} (c : M A) (k : A -> M B) : M B :=
  fun s =>
    match c s with
    | (Ok a, s') => k a s'
    | (Raise e, s') => (Raise e, s')
    end.

Definition raise {A} (e : exn) : M A := fun s => (Raise e, s).

(** [try: c  except <class>: h] where [handles] is the class test. *)
Definition try_except {A} (c : M A) (handles : exn -> bool) (h : exn -> M A)
  : M A :=
  fun s =>
    match c s with
    | (Raise e, s') => if handles e then h e s' else (Raise e, s')
    | r => r
    end.

Definition get_files : M (gmap fspath node) := fun s => (Ok (files s), s).

Definition put_file (q : fspath) (n : node) : M unit :=
  fun s => (Ok tt, mkState (<[q := n]> (files s)) (log s)).

Definition logger (l : level) (f : string) (args : list logarg) : M unit :=
  fun s => (Ok tt, mkState (files s) (log s ++ [mkLog l f args])).

Declare Scope M_scope.
Delimit Scope M_scope with M.
Notation "x <- c1 ;; c2" := (bind c1 (fun x => c2))
  (at level 100, c1 at next level, right associativity) : M_scope.
Notation "c1 ;; c2" := (bind c1 (fun _ => c2))
  (at level 100, right associativity) : M_scope.
Open Scope M_scope.

(** ** [os], [os.path] and [shutil] on the store *)

Definition os_path_exists (p : fspath) : M bool :=
  fs <- get_files ;; ret (exists_ fs p).

Definition os_path_isdir (p : fspath) : M bool :=
  fs <- get_files ;; ret (is_dir fs p).

(** [os.mkdir]: the last component is not followed when it is a link. *)
Definition os_mkdir (p : fspath) : M unit :=
  fs <- get_files ;;
  match resolve fs false p with
  | Found _ _ => raise (OSError EEXIST)
  | Missing q => put_file q Dir
  | Fail e => raise (OSError e)
  end.

(** [os.makedirs(name, exist_ok=exist_ok)], by recursion on the reversed
    component list: [tail :: rhead] is [path.split(name)].  A path handed
    over by [pathlib] has no single-dot component, so the early return for
    a tail equal to [curdir] never fires and is left out. *)
Fixpoint os_makedirs_rev (rname : fspath) (exist_ok : bool) : M unit :=
  (match rname with
   | _tail :: rhead =>
       head_exists <- os_path_exists (rev rhead) ;;
       if negb head_exists
       then try_except (os_makedirs_rev rhead exist_ok)
              is_FileExistsError (fun _ => ret tt)
       else ret tt
   | [] => ret tt
   end) ;;
  try_except (os_mkdir (rev rname)) is_OSError
    (fun e =>
       isd <- os_path_isdir (rev rname) ;;
       if negb exist_ok || negb isd then raise e else ret tt).

Definition os_makedirs (name : fspath) (exist_ok : bool) : M unit :=
  os_makedirs_rev (rev name) exist_ok.

(** [os.path.samefile] inside [shutil._samefile]: both paths stat to the
    same object; an [OSError] from either [stat] gives [False]. *)
Definition samefile (fs : gmap fspath node) (src dst : fspath) : bool :=
  match resolve fs true src, resolve fs true dst with
  | Found q1 _, Found q2 _ => bool_decide (q1 = q2)
  | _, _ => false
  end.

(** [open(src, 'rb')] followed by reading it whole. *)
Definition open_read (src : fspath) : M content :=
  fs <- get_files ;;
  match resolve fs true src with
  | Found _ (File c) => ret c
  | Found _ _ => raise (OSError EISDIR)
  | Missing _ => raise (OSError ENOENT)
  | Fail e => raise (OSError e)
  end.

(** [open(dst, 'wb')] followed by writing [c]: truncates the file the path
    resolves to, or creates it when only the last component is missing
    (also at the far end of a dangling link). *)
Definition open_write (dst : fspath) (c : content) : M unit :=
  fs <- get_files ;;
  match resolve fs true dst with
  | Found q (File _) => put_file q (File c)
  | Found _ _ => raise (OSError EISDIR)
  | Missing q => put_file q (File c)
  | Fail e => raise (OSError e)
  end.

(** [shutil.copyfile(src, dst, follow_symlinks=True)].  The store has no
    FIFOs, so the special-file test is void. *)
Definition shutil_copyfile (src dst : fspath) : M unit :=
  fs <- get_files ;;
  if samefile fs src dst then raise SameFileError
  else
    c <- open_read src ;;
    open_write dst c.

(** [shutil.copy(src, dst, follow_symlinks=True)]; permission bits are not
    modelled, so [copymode] has nothing to do. *)
Definition shutil_copy (src dst : fspath) : M fspath :=
  isd <- os_path_isdir dst ;;
  let dst' := if isd then dst ++ [List.last src EmptyString] else dst in
  shutil_copyfile src dst' ;;
  ret dst'.

(** [os.symlink(target, link)] *)
Definition os_symlink (target link : fspath) : M unit :=
  fs <- get_files ;;
  match resolve fs false link with
  | Found _ _ => raise (OSError EEXIST)
  | Missing q => put_file q (Link target)
  | Fail e => raise (OSError e)
  end.

(** The store sees a [Path] through its components, and a path string
    through the components [pathlib] would parse out of it. *)
Definition fs_of (p : Path) : fspath := p_tail p.
Definition os_path (s : string) : fspath := p_tail (pathlib.of_str s).

Definition Path_exists (p : Path) : M bool := os_path_exists (fs_of p).
Definition Path_is_dir (p : Path) : M bool := os_path_isdir (fs_of p).
Definition Path_symlink_to (p target : Path) : M unit :=
  os_symlink (fs_of target) (fs_of p).

(** ** Manifest entries and upstream targets *)

(** One row [(inm, fnm, typ)] of a table of contents. *)
Definition entry : Type := string * string * string.

(** Modelled from the spec: the class [TOC] of [building/datastruct.py] is
    not part of the sources at hand; the manifest is the ordered sequence of
    entries the spec describes, in which an internal name may occur more
    than once, with [append] and [extend] those of a list. *)
Definition TOC : Type := list entry.

(** The attributes of an [EXE] and of a [COLLECT] that the bundle reads. *)
Record EXE := mkEXE {
  exe_name : string;
  exe_typ : string;
  exe_dependencies : TOC;
  exe_strip : bool;
  exe_upx : bool;
  exe_upx_exclude : list string;
  exe_console : bool;
  exe_target_arch : option string;
  exe_codesign_identity : option string;
  exe_entitlements_file : option string
}.

Record COLLECT := mkCOLLECT {
  col_toc : TOC;
  col_strip_binaries : bool;
  col_upx_binaries : bool;
  col_upx_exclude : list string;
  col_console : bool;
  col_target_arch : option string;
  col_codesign_identity : option string;
  col_entitlements_file : option string
}.

(** A positional argument of the constructor, by its class. *)
Inductive target :=
| ArgEXE (e : EXE)
| ArgTOC (t : TOC)
| ArgCOLLECT (c : COLLECT)
| ArgOther (class_name : string).

(** The keyword arguments read by the constructor; [None] is an absent
    key.  [kw_info_plist] is [None] also for a value that is not a [dict]. *)
Record kwargs := mkKwargs {
  kw_icon : option string;
  kw_name : option string;
  kw_version : option string;
  kw_bundle_identifier : option string;
  kw_info_plist : option (gmap string pvalue)
}.

(** The entries of [PyInstaller.config.CONF] that are read. *)
Record config := mkConfig {
  specpath : string;
  distpath : string;
  workpath : string
}.

(** ** The [BUNDLE] object

    [upx_exclude] and [exename] are attributes that the constructor sets
    only on some paths; [None] is an attribute that was never assigned. *)
Record BUNDLE := mkBUNDLE {
  icon : string;
  name : string;
  appname : string;
  version : string;
  toc : TOC;
  strip : bool;
  upx : bool;
  upx_exclude : option (list string);
  console : bool;
  target_arch : option string;
  codesign_identity : option string;
  entitlements_file : option string;
  bundle_identifier : string;
  info_plist : option (gmap string pvalue);
  exename : option string;
  tocbasename : string
}.

(** Truthiness of an optional string: [None] and [''] are false. *)
Definition truthy (o : option string) : bool :=
  match o with Some s => Str.nonempty s | None => false end.

(** The scan for the first [EXECUTABLE] row:
    [for inm, name, typ in self.toc: if typ == "EXECUTABLE": self.exename = name; break] *)
Fixpoint scan_exename (t : TOC) : option string :=
  match t with
  | [] => None
  | (_, name, typ) :: rest =>
      if String.eqb typ "EXECUTABLE" then Some name else scan_exename rest
  end.

(** One round of [for arg in args]. *)
Definition init_arg (self : BUNDLE) (arg : target) : M BUNDLE :=
  match arg with
  | ArgEXE a =>
      ret {| icon := icon self; name := name self; appname := appname self;
             version := version self;
             toc := (toc self ++ [(posixpath.basename (exe_name a), exe_name a, exe_typ a)])
                    ++ exe_dependencies a;
             strip := exe_strip a; upx := exe_upx a;
             upx_exclude := Some (exe_upx_exclude a);
             console := exe_console a; target_arch := exe_target_arch a;
             codesign_identity := exe_codesign_identity a;
             entitlements_file := exe_entitlements_file a;
             bundle_identifier := bundle_identifier self;
             info_plist := info_plist self; exename := exename self;
             tocbasename := tocbasename self |}
  | ArgTOC t =>
      ret {| icon := icon self; name := name self; appname := appname self;
             version := version self;
             toc := toc self ++ t;
             strip := strip self; upx := upx self;
             upx_exclude := upx_exclude self;
             console := console self; target_arch := target_arch self;
             codesign_identity := codesign_identity self;
             entitlements_file := entitlements_file self;
             bundle_identifier := bundle_identifier self;
             info_plist := info_plist self; exename := exename self;
             tocbasename := tocbasename self |}
  | ArgCOLLECT c =>
      ret {| icon := icon self; name := name self; appname := appname self;
             version := version self;
             toc := toc self ++ col_toc c;
             strip := col_strip_binaries c; upx := col_upx_binaries c;
             upx_exclude := Some (col_upx_exclude c);
             console := col_console c; target_arch := col_target_arch c;
             codesign_identity := col_codesign_identity c;
             entitlements_file := col_entitlements_file c;
             bundle_identifier := bundle_identifier self;
             info_plist := info_plist self; exename := exename self;
             tocbasename := tocbasename self |}
  | ArgOther cls =>
      logger INFO "unsupported entry %s" [ArgStr cls] ;; ret self
  end.

Fixpoint init_args (self : BUNDLE) (args : list target) : M BUNDLE :=
  match args with
  | [] => ret self
  | arg :: rest => self' <- init_arg self arg ;; init_args self' rest
  end.

Section Bundle.

(** What the module takes from its surroundings: the configuration, the
    location of the module file, and [Target.__init__]'s [tocbasename].
    [Target.__postinit__], which the constructor calls last, belongs to
    the base class and is not part of this embedding. *)
Variable CONF : config.
Variable module_file : string.
Variable Target_tocbasename : string.

(** [BUNDLE.__init__(self, *args, **kws)]; the result is [None] when the
    constructor returns at once because the platform is not macOS. *)
Definition BUNDLE___init__ (is_darwin : bool) (args : list target)
    (kws : kwargs) : M (option BUNDLE) :=
  if negb is_darwin then ret None
  else
    let icon0 :=
      match kw_icon kws with
      | Some i =>
          if negb (Str.nonempty i) then
            posixpath.join (posixpath.dirname (posixpath.dirname module_file))
              ["bootloader"; "images"; "icon-windowed.icns"]
          else if negb (posixpath.isabs i) then posixpath.join (specpath CONF) [i]
          else i
      | None =>
          posixpath.join (posixpath.dirname (posixpath.dirname module_file))
            ["bootloader"; "images"; "icon-windowed.icns"]
      end in
    match kw_name kws with
    | None => raise TypeError
    | Some nm =>
        let base_name := posixpath.basename nm in
        let appname0 := fst (posixpath.splitext base_name) in
        let self0 :=
          {| icon := icon0;
             name := posixpath.join (distpath CONF) [base_name];
             appname := appname0;
             version := default "0.0.0" (kw_version kws);
             toc := [];
             strip := false; upx := false; upx_exclude := None;
             console := true; target_arch := None;
             codesign_identity := None; entitlements_file := None;
             bundle_identifier :=
               (if truthy (kw_bundle_identifier kws)
                then default EmptyString (kw_bundle_identifier kws)
                else appname0);
             info_plist := kw_info_plist kws;
             exename := None;
             tocbasename := Target_tocbasename |} in
        self1 <- init_args self0 args ;;
        ret (Some
          {| icon := icon self1; name := name self1; appname := appname self1;
             version := version self1; toc := toc self1;
             strip := strip self1; upx := upx self1;
             upx_exclude := upx_exclude self1;
             console := console self1; target_arch := target_arch self1;
             codesign_identity := codesign_identity self1;
             entitlements_file := entitlements_file self1;
             bundle_identifier := bundle_identifier self1;
             info_plist := info_plist self1;
             exename := scan_exename (toc self1);
             tocbasename := tocbasename self1 |})
    end.

(** *** The metadata descriptor *)

(** The dictionary literal of [assemble] with the conditional default.
    Reading [self.exename] raises when the attribute was never set. *)
Definition info_plist_defaults (self : BUNDLE) (icon_path : string)
  : M (gmap string pvalue) :=
  match exename self with
  | None => raise (AttributeError "exename")
  | Some exe =>
      let d : gmap string pvalue :=
        <["CFBundleShortVersionString" := PStr (version self)]>
        (<["CFBundlePackageType" := PStr "APPL"]>
        (<["CFBundleInfoDictionaryVersion" := PStr "6.0"]>
        (<["CFBundleIconFile" := PStr (posixpath.basename icon_path)]>
        (<["CFBundleExecutable" := PStr (posixpath.basename exe)]>
        (<["CFBundleIdentifier" := PStr (bundle_identifier self)]>
        (<["CFBundleName" := PStr (appname self)]>
        (<["CFBundleDisplayName" := PStr (appname self)]> ∅))))))) in
      ret (if console self
           then <["LSBackgroundOnly" := PBool true]> d
           else <["NSHighResolutionCapable" := PBool true]> d)
  end.

(** [if isinstance(self.info_plist, dict) and self.info_plist:
       info_plist_dict.update(self.info_plist)] *)
Definition merge_info_plist (self : BUNDLE) (d : gmap string pvalue)
  : gmap string pvalue :=
  match info_plist self with
  | Some ov => if bool_decide (ov = ∅) then d else ov ∪ d
  | None => d
  end.

Definition info_plist_dict (self : BUNDLE) (icon_path : string)
  : M (gmap string pvalue) :=
  d <- info_plist_defaults self icon_path ;;
  ret (merge_info_plist self d).

End Bundle.

(** ** [assemble] *)

(** The three placement branches of the loop over the manifest. *)
Inductive branch := BinaryPath | DataPath | DirectPath.

Section Assemble.

(** The collaborators, all defined outside this module:
    [building.utils] ([_check_path_overlap], [_rmtree],
    [add_suffix_to_extension], [checkCache]), [building.icon]
    ([normalize_icon_type]), [utils.osx] ([sign_binary]) and
    [os.path.abspath], which depends on the working directory.  Those that
    touch the disk or may fail are computations. *)
Variable CONF : config.
Variable _check_path_overlap : string -> M bool.
Variable _rmtree : string -> M unit.
Variable normalize_icon_type :
  string -> list string -> string -> string -> M string.
Variable abspath : string -> string.
Variable add_suffix_to_extension : string -> string -> string -> entry.
Variable checkCache :
  string -> bool -> bool -> list string -> string -> option string ->
  option string -> option string -> bool -> M string.
Variable sign_binary :
  string -> option string -> option string -> bool -> M unit.

Definition macos_path (self : BUNDLE) : Path :=
  pathlib.joinpath
    (pathlib.joinpath (pathlib.of_str (name self)) (pathlib.of_str "Contents"))
    (pathlib.of_str "MacOS").

Definition resources_path (self : BUNDLE) : Path :=
  pathlib.joinpath
    (pathlib.joinpath (pathlib.of_str (name self)) (pathlib.of_str "Contents"))
    (pathlib.of_str "Resources").

Definition frameworks_path (self : BUNDLE) : Path :=
  pathlib.joinpath
    (pathlib.joinpath (pathlib.of_str (name self)) (pathlib.of_str "Contents"))
    (pathlib.of_str "Frameworks").

(** The block the loop repeats before each write:
    [if dst.is_dir(): os.makedirs(dst, exist_ok=True)
     else: os.makedirs(dst.parent, exist_ok=True)] *)
Definition make_room (dst : Path) : M unit :=
  isd <- Path_is_dir dst ;;
  if isd then os_makedirs (fs_of dst) true
  else os_makedirs (fs_of (pathlib.parent dst)) true.

(** [inm_ = Path(inm_.name)] when a parent segment has a dot. *)
Definition collapse (inm_ : Path) : Path :=
  if dotted_parent inm_ then pathlib.of_str (pathlib.name inm_) else inm_.

(** The body under
    [if typ in ('EXTENSION', 'BINARY') or (typ == 'DATA' and inm_.suffix == '.so')]. *)
Definition binary_path (self : BUNDLE) (inm_ fnm : Path) (typ : string)
  : M unit :=
  let inm_ := collapse inm_ in
  upx_exclude_ <-
    match upx_exclude self with
    | Some x => ret x
    | None => raise (AttributeError "upx_exclude")
    end ;;
  cached <-
    checkCache (pathlib.str fnm) (strip self) (upx self) upx_exclude_
      (pathlib.str inm_) (target_arch self) (codesign_identity self)
      (entitlements_file self) (String.eqb typ "EXTENSION") ;;
  let fnm := pathlib.of_str cached in
  let frame_dst := pathlib.joinpath (frameworks_path self) inm_ in
  frame_exists <- Path_exists frame_dst ;;
  (if negb frame_exists then make_room frame_dst else ret tt) ;;
  shutil_copy (fs_of fnm) (fs_of frame_dst) ;;
  let macos_dst := pathlib.joinpath (macos_path self) inm_ in
  macos_exists <- Path_exists macos_dst ;;
  if negb macos_exists then
    make_room macos_dst ;;
    Path_symlink_to macos_dst frame_dst
  else ret tt.

(** The body under [if typ == 'DATA'] of the [else] branch. *)
Definition data_path (self : BUNDLE) (inm_ fnm : Path) : M unit :=
  if dotted_parent inm_ || String.eqb (pathlib.suffix inm_) ".so"
  then ret tt
  else
    let res_dst := pathlib.joinpath (resources_path self) inm_ in
    res_exists <- Path_exists res_dst ;;
    (if negb res_exists then make_room res_dst else ret tt) ;;
    shutil_copy (fs_of fnm) (fs_of res_dst) ;;
    let macos_dst := pathlib.joinpath (macos_path self) inm_ in
    macos_exists <- Path_exists macos_dst ;;
    if negb macos_exists then
      make_room macos_dst ;;
      Path_symlink_to macos_dst res_dst
    else ret tt.

(** The innermost [else]. *)
Definition direct_path (self : BUNDLE) (inm_ fnm : Path) : M unit :=
  let macos_dst := pathlib.joinpath (macos_path self) inm_ in
  macos_exists <- Path_exists macos_dst ;;
  if negb macos_exists then
    make_room macos_dst ;;
    shutil_copy (fs_of fnm) (fs_of macos_dst) ;;
    ret tt
  else ret tt.

(** One round of [for inm, fnm, typ in self.toc]. *)
Definition place_entry (self : BUNDLE) (e : entry) : M unit :=
  let '(inm, fnm, typ) := e in
  let '(inm, fnm, typ) := add_suffix_to_extension inm fnm typ in
  let inm_ := pathlib.of_str inm in
  let fnm := pathlib.of_str fnm in
  if (String.eqb typ "EXTENSION" || String.eqb typ "BINARY")
     || (String.eqb typ "DATA" && String.eqb (pathlib.suffix inm_) ".so")
  then binary_path self inm_ fnm typ
  else
    if String.eqb typ "DATA" then data_path self inm_ fnm
    else direct_path self inm_ fnm.

Fixpoint place_all (self : BUNDLE) (t : TOC) : M unit :=
  match t with
  | [] => ret tt
  | e :: rest => place_entry self e ;; place_all self rest
  end.

(** Removal of an earlier bundle and creation of the skeleton, up to the
    copy of the icon. *)
Definition scaffold (self : BUNDLE) : M string :=
  overlap_ok <- _check_path_overlap (name self) ;;
  isd <- (if overlap_ok then os_path_isdir (os_path (name self)) else ret false) ;;
  (if isd then _rmtree (name self) else ret tt) ;;
  logger INFO "Building BUNDLE %s" [ArgStr (tocbasename self)] ;;
  os_makedirs (fs_of (macos_path self)) false ;;
  os_makedirs (fs_of (resources_path self)) false ;;
  os_makedirs (fs_of (frameworks_path self)) false ;;
  icon1 <- normalize_icon_type (icon self) ["icns"] "icns" (workpath CONF) ;;
  let icon2 := abspath icon1 in
  shutil_copy (os_path icon2)
    (os_path (posixpath.join (name self) ["Contents"; "Resources"])) ;;
  ret icon2.

(** The descriptor and its file [Contents/Info.plist]. *)
Definition write_info_plist (self : BUNDLE) (icon_path : string) : M unit :=
  d <- info_plist_dict self icon_path ;;
  let plist_filename := posixpath.join (name self) ["Contents"; "Info.plist"] in
  open_write (os_path plist_filename) (Plist d).

(** The [try] around [osxutils.sign_binary] with its [except Exception]. *)
Definition sign_bundle (self : BUNDLE) : M unit :=
  logger INFO "Signing the BUNDLE..." [] ;;
  try_except
    (sign_binary (name self) (codesign_identity self)
       (entitlements_file self) true)
    is_Exception
    (fun e =>
       logger WARNING "Error while signing the bundle: %s" [ArgExn e] ;;
       logger WARNING "You will need to sign the bundle manually!" []).

(** Everything [assemble] does before it turns to signing. *)
Definition assemble_unsigned (self : BUNDLE) : M unit :=
  icon_path <- scaffold self ;;
  write_info_plist self icon_path ;;
  place_all self (toc self).

(** [BUNDLE.assemble(self)] *)
Definition assemble (self : BUNDLE) : M unit :=
  assemble_unsigned self ;;
  sign_bundle self ;;
  logger INFO "Building BUNDLE %s completed successfully."
    [ArgStr (tocbasename self)].

(** *** The classification of the spec's table, first match first *)

Definition classify (typ : string) (inm_ : Path) : branch :=
  if String.eqb typ "EXTENSION" then BinaryPath
  else if String.eqb typ "BINARY" then BinaryPath
  else if String.eqb typ "DATA" then
    if String.eqb (pathlib.suffix inm_) ".so" then BinaryPath else DataPath
  else DirectPath.

End Assemble.


(** ** Vocabulary of the properties *)

(** Two nodes of the same kind: files may differ in content. *)
Definition same_kind (n n' : node) : Prop :=
  match n, n' with
  | File _, File _ => True
  | Dir, Dir => True
  | Link t, Link t' => t = t'
  | _, _ => False
  end.

(** [fs'] has everything [fs] has, up to the content of files. *)
Definition extends (fs fs' : gmap fspath node) : Prop :=
  forall k n, fs !! k = Some n -> exists n', fs' !! k = Some n' /\ same_kind n n'.

Definition is_link (n : node) : bool :=
  match n with Link _ => true | _ => false end.

(** How a walk in [fs'] relates to the same walk in [fs]. *)
Definition walk_rel (fs fs' : gmap fspath node) (follow : bool)
    (r r' : walk_result) : Prop :=
  match r with
  | Found q n =>
      exists n', r' = Found q n' /\ same_kind n n'
                 /\ (n <> Dir -> fs !! q = Some n)
                 /\ (n' <> Dir -> fs' !! q = Some n')
  | Missing q =>
      fs !! q = None
      /\ (fs' !! q = None -> r' = Missing q)
      /\ (forall n, fs' !! q = Some n ->
                    follow = false \/ is_link n = false -> r' = Found q n)
  | Fail _ => True
  end.

(** Lines 202-208 and 221-227: make room for the destination when it does
    not exist, then copy. *)
Definition copy_step (src dst : Path) : M fspath :=
  dst_exists <- Path_exists dst ;;
  (if negb dst_exists then make_room dst else ret tt) ;;
  shutil_copy (fs_of src) (fs_of dst).

(** Lines 209-215 and 228-234: link the MacOS path to the copy unless the
    MacOS path exists. *)
Definition link_step (macos_dst target : Path) : M unit :=
  macos_exists <- Path_exists macos_dst ;;
  if negb macos_exists then
    make_room macos_dst ;;
    Path_symlink_to macos_dst target
  else ret tt.

(** The state of a store in which [src] has been copied to [dst], the copy
    sitting at [d] ([dst] itself, or inside it when [dst] is a directory). *)
Definition copied (fs : gmap fspath node) (src dst d : fspath) (c : content)
  : Prop :=
  exists qs q,
    qs <> q
    /\ resolve fs true src = Found qs (File c)
    /\ resolve fs true d = Found q (File c)
    /\ d = (if is_dir fs dst then dst ++ [List.last src EmptyString] else dst)
    /\ exists_ fs dst = true.


(** The rows one positional argument contributes to the manifest, and the
    log record it causes. *)
Definition arg_toc (a : target) : TOC :=
  match a with
  | ArgEXE e =>
      (posixpath.basename (exe_name e), exe_name e, exe_typ e)
        :: exe_dependencies e
  | ArgTOC t => t
  | ArgCOLLECT c => col_toc c
  | ArgOther _ => []
  end.

Definition arg_log (a : target) : list logrec :=
  match a with
  | ArgOther cls => [mkLog INFO "unsupported entry %s" [ArgStr cls]]
  | _ => []
  end.

(** The manifest merged from all positional arguments, in argument order. *)
Definition merged_toc (args : list target) : TOC := flat_map arg_toc args.

(** A row that is not of kind [EXECUTABLE]. *)
Definition not_executable (e : entry) : Prop := snd e <> "EXECUTABLE".

(** Modelled from the spec: the spec speaks of "filesystem-unsafe
    characters" without listing them and the sources have no such function;
    taken here as the path separator, the colon (the separator of classic
    Mac paths) and the NUL character. *)
Definition fs_unsafe (c : ascii) : bool :=
  Ascii.eqb c "/" || Ascii.eqb c ":" || Ascii.eqb c "000".

Fixpoint strip_unsafe (s : string) : string :=
  match s with
  | EmptyString => EmptyString
  | String a r => if fs_unsafe a then strip_unsafe r else String a (strip_unsafe r)
  end.

(** The three log records that end a run whose signing step raised [e]. *)
Definition signing_failure_log (self : BUNDLE) (e : exn) : list logrec :=
  [mkLog WARNING "Error while signing the bundle: %s" [ArgExn e];
   mkLog WARNING "You will need to sign the bundle manually!" [];
   mkLog INFO "Building BUNDLE %s completed successfully."
     [ArgStr (tocbasename self)]].

(** ** Concrete surroundings for worked runs *)

Module Sample.

Definition conf : config := mkConfig "/spec" "/dist" "/work".
Definition module_file : string := "/pyi/PyInstaller/building/osx.py".
Definition toc_basename : string := "BUNDLE-00.toc".

(** Collaborators that do the least: the overlap check passes, the icon
    is taken as it is, names are not adjusted, the cache hands back the
    file it was given, signing succeeds. *)
Definition check_path_overlap (_ : string) : M bool := ret true.
Definition rmtree (_ : string) : M unit := ret tt.
Definition normalize_icon_type (i : string) (_ : list string)
  (_ _ : string) : M string := ret i.
Definition abspath (p : string) : string := p.
Definition add_suffix_to_extension (inm fnm typ : string) : entry :=
  (inm, fnm, typ).
Definition checkCache (fnm : string) (_ _ : bool) (_ : list string)
  (_ : string) (_ _ _ : option string) (_ : bool) : M string := ret fnm.
Definition sign_ok (_ : string) (_ _ : option string) (_ : bool) : M unit :=
  ret tt.
Definition sign_fails (_ : string) (_ _ : option string) (_ : bool)
  : M unit := raise (OtherException "codesign failed").

Definition dirs (l : list fspath) (fs : gmap fspath node)
  : gmap fspath node :=
  foldr (fun p m => <[p := Dir]> m) fs l.

(** A disk with the default icon, a build directory and an empty
    distribution directory. *)
Definition disk : gmap fspath node :=
  <[ ["pyi"; "PyInstaller"; "bootloader"; "images"; "icon-windowed.icns"]
       := File (Bytes "ICON") ]>
  (<[ ["build"; "myapp"] := File (Bytes "EXE") ]>
  (<[ ["build"; "a"; "libfoo.so"] := File (Bytes "FOO-A") ]>
  (<[ ["build"; "b"; "libfoo.so"] := File (Bytes "FOO-B") ]>
  (<[ ["build"; "readme.txt"] := File (Bytes "README") ]>
  (dirs [["dist"]; ["build"]; ["build"; "a"]; ["build"; "b"]; ["pyi"];
         ["pyi"; "PyInstaller"];
         ["pyi"; "PyInstaller"; "bootloader"];
         ["pyi"; "PyInstaller"; "bootloader"; "images"]] ∅))))).

Definition s0 : state := mkState disk [].

Definition kws (nm : string) : kwargs :=
  mkKwargs None (Some nm) None None None.

(** A bundle object as the constructor leaves it after a [COLLECT]
    argument with the manifest [t]. *)
Definition bundle (t : TOC) (cons : bool) : BUNDLE :=
  {| icon := "/pyi/PyInstaller/bootloader/images/icon-windowed.icns";
     name := "/dist/My.app"; appname := "My"; version := "0.0.0";
     toc := t; strip := false; upx := false; upx_exclude := Some [];
     console := cons; target_arch := None; codesign_identity := None;
     entitlements_file := None; bundle_identifier := "My";
     info_plist := None; exename := scan_exename t;
     tocbasename := toc_basename |}.

(** The skeleton of [/dist/My.app] on the sample disk. *)
Definition scaffolded : gmap fspath node :=
  dirs [["dist"; "My.app"]; ["dist"; "My.app"; "Contents"];
        ["dist"; "My.app"; "Contents"; "MacOS"];
        ["dist"; "My.app"; "Contents"; "Resources"];
        ["dist"; "My.app"; "Contents"; "Frameworks"]] disk.

(** What the constructor builds from the single argument [TOC(t)] and
    the name [My.app]. *)
Definition from_toc (t : TOC) : BUNDLE :=
  {| icon := "/pyi/PyInstaller/bootloader/images/icon-windowed.icns";
     name := "/dist/My.app"; appname := "My"; version := "0.0.0";
     toc := t; strip := false; upx := false; upx_exclude := None;
     console := true; target_arch := None; codesign_identity := None;
     entitlements_file := None; bundle_identifier := "My";
     info_plist := None; exename := scan_exename t;
     tocbasename := toc_basename |}.

Definition init (args : list target) (k : kwargs)
  : M (option BUNDLE) :=
  BUNDLE___init__ conf module_file toc_basename true args k.

Definition place : BUNDLE -> entry -> M unit :=
  place_entry add_suffix_to_extension checkCache.


Definition run_unsigned : BUNDLE -> M unit :=
  assemble_unsigned conf check_path_overlap rmtree normalize_icon_type
    abspath add_suffix_to_extension checkCache.

Definition e_exe : entry := ("myapp", "/build/myapp", "EXECUTABLE").
Definition e_foo_a : entry := ("libfoo.so", "/build/a/libfoo.so", "BINARY").
Definition e_foo_b : entry := ("libfoo.so", "/build/b/libfoo.so", "BINARY").
Definition e_foo_deep : entry :=
  ("lib/python3.9/libfoo.so", "/build/a/libfoo.so", "BINARY").
Definition e_readme : entry := ("data/readme.txt", "/build/readme.txt", "DATA").
Definition e_meta : entry :=
  ("pkg-1.0.dist-info/METADATA", "/build/readme.txt", "DATA").

Definition st_scaffolded : state := mkState scaffolded [].

(** The bundle object all placements below run for. *)
Definition app : BUNDLE := bundle [e_exe; e_foo_a; e_readme] true.

Definition frameworks : fspath := ["dist"; "My.app"; "Contents"; "Frameworks"].
Definition resources : fspath := ["dist"; "My.app"; "Contents"; "Resources"].

(** The state after placing [e] in state [s]. *)
Definition after (e : entry) (s : state) : state := snd (place app e s).

End Sample.

(** The object a constructor call returns, if it returns one. *)
Definition built (r : outcome (option BUNDLE) * state) : option BUNDLE :=
  match fst r with
  | Ok (Some b) => Some b
  | _ => None
  end.

(** The descriptor a call of [info_plist_dict] returns, if it returns one. *)
Definition descriptor (r : outcome (gmap string pvalue) * state)
  : gmap string pvalue :=
  match fst r with
  | Ok d => d
  | Raise _ => ∅
  end.


(** ** Vocabulary of the further properties *)

(** The attributes a bundle inherits from an [EXE] or a [COLLECT]. *)
Record settings := mkSettings {
  s_strip : bool;
  s_upx : bool;
  s_upx_exclude : option (list string);
  s_console : bool;
  s_target_arch : option string;
  s_codesign_identity : option string;
  s_entitlements_file : option string
}.

Definition settings_of (b : BUNDLE) : settings :=
  mkSettings (strip b) (upx b) (upx_exclude b) (console b) (target_arch b)
    (codesign_identity b) (entitlements_file b).

(** The values the constructor starts from (lines 58-63). *)
Definition default_settings : settings :=
  mkSettings false false None true None None None.

(** The attributes an argument hands over, if it hands over any. *)
Definition arg_settings (a : target) : option settings :=
  match a with
  | ArgEXE e =>
      Some (mkSettings (exe_strip e) (exe_upx e) (Some (exe_upx_exclude e))
              (exe_console e) (exe_target_arch e) (exe_codesign_identity e)
              (exe_entitlements_file e))
  | ArgCOLLECT c =>
      Some (mkSettings (col_strip_binaries c) (col_upx_binaries c)
              (Some (col_upx_exclude c)) (col_console c) (col_target_arch c)
              (col_codesign_identity c) (col_entitlements_file c))
  | ArgTOC _ | ArgOther _ => None
  end.

(** The keys every descriptor is built with. *)
Definition required_keys : list string :=
  ["CFBundleDisplayName"; "CFBundleName"; "CFBundleIdentifier";
   "CFBundleExecutable"; "CFBundleIconFile"; "CFBundleInfoDictionaryVersion";
   "CFBundlePackageType"; "CFBundleShortVersionString"].

(** A collaborator that, whatever it returns, leaves in the store all that
    was there (file contents apart). *)
Definition preserving {A} (c : M A) : Prop :=
  forall s o s', c s = (o, s') -> extends (files s) (files s').

(** A path as [pathlib] parses one: a root of at most two slashes and
    components that are non-empty, not a single dot and free of slashes. *)
Definition well_formed (p : Path) : Prop :=
  (p_root p = EmptyString \/ p_root p = "/" \/ p_root p = "//")
  /\ Forall (fun x => Str.nonempty x = true /\ x <> "."
                      /\ Str.contains posixpath.sep x = false) (p_tail p).

(** The component filter of [Path(s)]. *)
Definition keeps (x : string) : bool :=
  Str.nonempty x && negb (String.eqb x ".").

(** A [COLLECT] with settings of its own, and a signer that is interrupted. *)
Definition sample_collect : COLLECT :=
  mkCOLLECT [("myapp", "/build/myapp", "EXECUTABLE")] true false ["vcruntime"]
    false (Some "arm64") (Some "Developer ID") None.

Definition sign_interrupted (_ : string) (_ _ : option string) (_ : bool)
  : M unit := raise KeyboardInterrupt.
(** * Properties *)

(** ** Worked examples of the path functions *)

Example basename_ex : posixpath.basename "/build/out/myapp" = "myapp".
Proof. reflexivity. Qed.

Example splitext_ex : posixpath.splitext "My.Tool.app" = ("My.Tool", ".app").
Proof. reflexivity. Qed.

Example splitext_hidden_ex : posixpath.splitext ".bashrc" = (".bashrc", "").
Proof. reflexivity. Qed.

Example of_str_ex :
  pathlib.of_str "lib//python3.9/./x.so" = mkPath "" ["lib"; "python3.9"; "x.so"].
Proof. reflexivity. Qed.

Example suffix_ex :
  pathlib.suffix (pathlib.of_str "a/libfoo.so") = ".so"
  /\ pathlib.suffix (pathlib.of_str "a/.so") = ""
  /\ pathlib.suffix (pathlib.of_str "a/x.so.1") = ".1".
Proof. repeat split; reflexivity. Qed.

Example dotted_parent_ex :
  dotted_parent (pathlib.of_str "pkg-1.0.dist-info/METADATA") = true
  /\ dotted_parent (pathlib.of_str "data/readme.txt") = false
  /\ dotted_parent (pathlib.of_str "../x") = true.
Proof. repeat split; reflexivity. Qed.


(** ** Path resolution *)

Lemma walk_nil fuel fs follow cur :
  walk fuel fs follow cur [] = Found cur Dir.
Proof. destruct fuel; reflexivity. Qed.

Lemma walk_cons fuel fs follow cur c r :
  walk fuel fs follow cur (c :: r) =
  if String.eqb c ".." then walk fuel fs follow (removelast cur) r
  else
    match fs !! (cur ++ [c]) with
    | None => match r with [] => Missing (cur ++ [c]) | _ => Fail ENOENT end
    | Some Dir => walk fuel fs follow (cur ++ [c]) r
    | Some (File x) =>
        match r with [] => Found (cur ++ [c]) (File x) | _ => Fail ENOTDIR end
    | Some (Link t) =>
        match r, follow with
        | [], false => Found (cur ++ [c]) (Link t)
        | _, _ =>
            match fuel with
            | O => Fail ELOOP
            | S f => walk f fs follow [] (t ++ r)
            end
        end
    end.
Proof. destruct fuel; reflexivity. Qed.

Lemma same_kind_refl n : same_kind n n.
Proof. destruct n; simpl; auto. Qed.

Lemma extends_refl fs : extends fs fs.
Proof. intros k n Hk. exists n. split; [done | apply same_kind_refl]. Qed.

Lemma extends_trans fs1 fs2 fs3 :
  extends fs1 fs2 -> extends fs2 fs3 -> extends fs1 fs3.
Proof.
  intros H12 H23 k n Hk.
  destruct (H12 k n Hk) as (n2 & Hk2 & Hs2).
  destruct (H23 k n2 Hk2) as (n3 & Hk3 & Hs3).
  exists n3. split; [done |].
  destruct n, n2, n3; simpl in *; try done. congruence.
Qed.

Lemma subseteq_extends (fs fs' : gmap fspath node) : fs ⊆ fs' -> extends fs fs'.
Proof.
  intros Hsub k n Hk. exists n. split; [| apply same_kind_refl].
  eapply lookup_weaken; eauto.
Qed.

Lemma walk_extends fs fs' follow :
  extends fs fs' ->
  forall fuel rest cur,
    walk_rel fs fs' follow (walk fuel fs follow cur rest)
                           (walk fuel fs' follow cur rest).
Proof.
  intros Hext. induction fuel as [| f IHf].
  - induction rest as [| c r IHr]; intros cur.
    + rewrite !walk_nil. simpl. exists Dir. repeat split; try done.
    + rewrite !walk_cons. destruct (String.eqb c ".."); [apply IHr |].
      destruct (fs !! (cur ++ [c])) as [n |] eqn:Hq.
      * destruct (Hext _ _ Hq) as (n' & Hq' & Hs). rewrite Hq'.
        destruct n, n'; simpl in Hs; try (exfalso; exact Hs).
        -- destruct r; simpl; [| done].
           eexists. repeat split; eauto.
        -- apply IHr.
        -- subst. destruct r, follow; simpl; try done.
           eexists. repeat split; eauto.
      * destruct r; simpl; [| done]. split; [done |]. split.
        -- intros ->. done.
        -- intros n Hn Hcase. rewrite Hn. destruct n as [x | | t].
           ++ done.
           ++ rewrite ?walk_nil; reflexivity.
           ++ destruct Hcase as [-> | ?]; done.
  - induction rest as [| c r IHr]; intros cur.
    + rewrite !walk_nil. simpl. exists Dir. repeat split; try done.
    + rewrite !walk_cons. destruct (String.eqb c ".."); [apply IHr |].
      destruct (fs !! (cur ++ [c])) as [n |] eqn:Hq.
      * destruct (Hext _ _ Hq) as (n' & Hq' & Hs). rewrite Hq'.
        destruct n, n'; simpl in Hs; try (exfalso; exact Hs).
        -- destruct r; simpl; [| done].
           eexists. repeat split; eauto.
        -- apply IHr.
        -- subst. destruct r, follow; simpl; try apply IHf.
           eexists. repeat split; eauto.
      * destruct r; simpl; [| done]. split; [done |]. split.
        -- intros ->. done.
        -- intros n Hn Hcase. rewrite Hn. destruct n as [x | | t].
           ++ done.
           ++ rewrite ?walk_nil; reflexivity.
           ++ destruct Hcase as [-> | ?]; done.
Qed.

Lemma resolve_extends fs fs' follow p :
  extends fs fs' ->
  walk_rel fs fs' follow (resolve fs follow p) (resolve fs' follow p).
Proof. intros H. apply walk_extends, H. Qed.

(** A lookup that finds something finds the same thing in a larger store. *)
Lemma resolve_found_mono (fs fs' : gmap fspath node) follow p q n :
  fs ⊆ fs' -> resolve fs follow p = Found q n -> resolve fs' follow p = Found q n.
Proof.
  intros Hsub Hr.
  pose proof (resolve_extends fs fs' follow p (subseteq_extends _ _ Hsub)) as H.
  rewrite Hr in H. destruct H as (n' & Hr' & Hs & Hn & Hn'). rewrite Hr'. f_equal.
  destruct n as [c | | t], n' as [c' | | t']; simpl in Hs;
    try (exfalso; exact Hs).
  - assert (fs !! q = Some (File c)) as H1 by (apply Hn; done).
    assert (fs' !! q = Some (File c')) as H2 by (apply Hn'; done).
    eapply lookup_weaken in H1; eauto. congruence.
  - done.
  - by subst.
Qed.

Lemma resolve_missing_None fs follow p q :
  resolve fs follow p = Missing q -> fs !! q = None.
Proof.
  intros Hr. pose proof (resolve_extends fs fs follow p (extends_refl fs)) as H.
  rewrite Hr in H. apply H.
Qed.

Lemma resolve_found_lookup fs follow p q n :
  resolve fs follow p = Found q n -> n <> Dir -> fs !! q = Some n.
Proof.
  intros Hr Hn. pose proof (resolve_extends fs fs follow p (extends_refl fs)) as H.
  rewrite Hr in H. destruct H as (n' & _ & _ & H & _). auto.
Qed.

(** Filling the place a lookup found missing makes the lookup find it. *)
Lemma resolve_missing_insert fs follow p q n :
  resolve fs follow p = Missing q ->
  follow = false \/ is_link n = false ->
  resolve (<[q := n]> fs) follow p = Found q n.
Proof.
  intros Hr Hcase.
  assert (fs !! q = None) as Hq by (eapply resolve_missing_None; eauto).
  pose proof (resolve_extends fs (<[q := n]> fs) follow p) as H.
  rewrite Hr in H. destruct H as (_ & _ & H).
  - apply subseteq_extends, insert_subseteq, Hq.
  - apply H; [apply lookup_insert_eq | done].
Qed.

(** ** The primitives of the store *)

Opaque resolve walk.

Lemma bind_Ok {A B} (c : M A) (k : A -> M B) s b s2 :
  bind c k s = (Ok b, s2) ->
  exists a s1, c s = (Ok a, s1) /\ k a s1 = (Ok b, s2).
Proof.
  unfold bind. destruct (c s) as [[a | e] s1]; [eauto | discriminate].
Qed.

Lemma bind_eq {A B} (c : M A) (k : A -> M B) s a s1 :
  c s = (Ok a, s1) -> bind c k s = k a s1.
Proof. unfold bind. by intros ->. Qed.

Lemma os_path_exists_eq p s :
  os_path_exists p s = (Ok (exists_ (files s) p), s).
Proof. reflexivity. Qed.

Lemma os_path_isdir_eq p s :
  os_path_isdir p s = (Ok (is_dir (files s) p), s).
Proof. reflexivity. Qed.

Lemma state_eta s : mkState (files s) (log s) = s.
Proof. by destruct s. Qed.

(** [os.mkdir] only ever adds a directory where nothing was. *)
Lemma os_mkdir_mono p s o s' :
  os_mkdir p s = (o, s') -> files s ⊆ files s' /\ log s' = log s.
Proof.
  unfold os_mkdir, bind, get_files, put_file, raise. simpl.
  destruct (resolve (files s) false p) as [q n | q | e] eqn:Hr;
    intros [= <- <-]; simpl; try done.
  split; [| done]. apply insert_subseteq. eapply resolve_missing_None; eauto.
Qed.

(** [os.makedirs] likewise, whether it succeeds or raises half-way. *)
Lemma os_makedirs_rev_mono rname ok :
  forall s o s', os_makedirs_rev rname ok s = (o, s') ->
                 files s ⊆ files s' /\ log s' = log s.
Proof.
  induction rname as [| tl rhead IH]; intros s o s'.
  - cbn [os_makedirs_rev]. unfold bind at 1. cbn [ret].
    unfold try_except.
    destruct (os_mkdir (rev []) s) as [[[] | e] s1] eqn:Hm.
    + intros [= <- <-]. eapply os_mkdir_mono; eauto.
    + apply os_mkdir_mono in Hm as [Hsub Hlog].
      destruct (is_OSError e); [| by intros [= <- <-]].
      unfold bind. rewrite os_path_isdir_eq.
      destruct (negb ok || negb (is_dir (files s1) (rev []))); cbn;
        by intros [= <- <-].
  - cbn [os_makedirs_rev]. unfold bind at 1.
    match goal with
    | |- context [bind (os_path_exists ?p) ?k s] =>
        rewrite (bind_eq (os_path_exists p) k s _ s (os_path_exists_eq p s))
    end.
    assert (forall o1 s1,
      (if negb (exists_ (files s) (rev rhead))
       then try_except (os_makedirs_rev rhead ok) is_FileExistsError
              (fun _ => ret tt)
       else ret tt) s = (o1, s1) -> files s ⊆ files s1 /\ log s1 = log s) as Hpre.
    { intros o1 s1. destruct (negb (exists_ (files s) (rev rhead))).
      - unfold try_except.
        destruct (os_makedirs_rev rhead ok s) as [[[] | e] s2] eqn:Hrec.
        + intros [= <- <-]. eapply IH; eauto.
        + apply IH in Hrec.
          destruct (is_FileExistsError e); cbn; by intros [= <- <-].
      - cbn. by intros [= <- <-]. }
    destruct ((if negb (exists_ (files s) (rev rhead))
       then try_except (os_makedirs_rev rhead ok) is_FileExistsError
              (fun _ => ret tt)
       else ret tt) s) as [[[] | e1] s1] eqn:Hpre1.
    + destruct (Hpre _ _ eq_refl) as [Hsub1 Hlog1].
      unfold try_except.
      destruct (os_mkdir (rev (tl :: rhead)) s1) as [[[] | e] s2] eqn:Hm.
      * intros [= <- <-]. apply os_mkdir_mono in Hm as [Hsub Hlog].
        split; [by etrans | congruence].
      * apply os_mkdir_mono in Hm as [Hsub Hlog].
        assert (files s ⊆ files s2 /\ log s2 = log s) as Hfin
          by (split; [by etrans | congruence]).
        destruct (is_OSError e); [| by intros [= <- <-]].
        unfold bind. rewrite os_path_isdir_eq.
        destruct (negb ok || negb (is_dir (files s2) (rev (tl :: rhead)))); cbn;
          by intros [= <- <-].
    + destruct (Hpre _ _ eq_refl) as [Hsub1 Hlog1]. by intros [= <- <-].
Qed.

Lemma os_makedirs_mono nm ok s o s' :
  os_makedirs nm ok s = (o, s') -> files s ⊆ files s' /\ log s' = log s.
Proof. apply os_makedirs_rev_mono. Qed.

(** What a successful [shutil.copy] did. *)
Lemma shutil_copy_Ok src dst s d s' :
  shutil_copy src dst s = (Ok d, s') ->
  d = (if is_dir (files s) dst then dst ++ [List.last src EmptyString] else dst)
  /\ samefile (files s) src d = false
  /\ exists qs c q,
       resolve (files s) true src = Found qs (File c)
       /\ (resolve (files s) true d = Missing q
           \/ exists c0, resolve (files s) true d = Found q (File c0))
       /\ s' = mkState (<[q := File c]> (files s)) (log s).
Proof.
  unfold shutil_copy. intros H.
  apply bind_Ok in H as (isd & s1 & H1 & H).
  rewrite os_path_isdir_eq in H1. injection H1 as <- <-.
  apply bind_Ok in H as ([] & s2 & H2 & H).
  unfold ret in H. injection H as Hd Hs. subst s2.
  split; [done |].
  set (d0 := if is_dir (files s) dst
            then dst ++ [List.last src EmptyString] else dst) in *.
  clearbody d0. subst d0.
  unfold shutil_copyfile, bind, get_files in H2. simpl in H2.
  destruct (samefile (files s) src d) eqn:Hsame; [discriminate |].
  split; [done |].
  unfold open_read, open_write, bind, get_files, raise, ret, put_file in H2.
  simpl in H2.
  destruct (resolve (files s) true src) as [qs [c | | t] | qs | e] eqn:Hsrc;
    try discriminate.
  simpl in H2.
  destruct (resolve (files s) true d) as [q [c0 | | t] | q | e] eqn:Hdst.
  - injection H2 as <-. exists qs, c, q. split; [done |]. split; [| done].
    right. by exists c0.
  - discriminate H2.
  - discriminate H2.
  - injection H2 as <-. exists qs, c, q. split; [done |]. split; [| done].
    by left.
  - discriminate H2.
Qed.

(** Copying again what is already in place changes nothing. *)
Lemma shutil_copy_again src dst s d qs q c :
  d = (if is_dir (files s) dst then dst ++ [List.last src EmptyString] else dst) ->
  resolve (files s) true src = Found qs (File c) ->
  resolve (files s) true d = Found q (File c) ->
  qs <> q ->
  shutil_copy src dst s = (Ok d, s).
Proof.
  intros Hd Hsrc Hdst Hne.
  unfold shutil_copy, bind. rewrite os_path_isdir_eq. rewrite <- Hd.
  unfold shutil_copyfile, bind, get_files. simpl.
  unfold samefile. rewrite Hsrc, Hdst.
  rewrite bool_decide_eq_false_2 by done.
  unfold open_read, open_write, bind, get_files, ret, put_file. simpl.
  rewrite Hsrc. simpl. rewrite Hdst. simpl.
  rewrite insert_id; [by rewrite state_eta |].
  eapply resolve_found_lookup; eauto.
Qed.

Lemma os_symlink_Ok target link s s' :
  os_symlink target link s = (Ok tt, s') ->
  exists q, resolve (files s) false link = Missing q
            /\ s' = mkState (<[q := Link target]> (files s)) (log s).
Proof.
  unfold os_symlink, bind, get_files, put_file, raise. simpl.
  destruct (resolve (files s) false link) as [q n | q | e] eqn:Hr;
    try discriminate.
  intros [= <-]. eauto.
Qed.


(** ** The two steps shared by the binary path and the data path *)

Lemma make_room_mono dst s o s' :
  make_room dst s = (o, s') -> files s ⊆ files s' /\ log s' = log s.
Proof.
  unfold make_room, bind, Path_is_dir. rewrite os_path_isdir_eq.
  destruct (is_dir (files s) (fs_of dst)); apply os_makedirs_mono.
Qed.

Lemma insert_file_extends (fs : gmap fspath node) q c :
  fs !! q = None \/ (exists c0, fs !! q = Some (File c0)) ->
  extends fs (<[q := File c]> fs).
Proof.
  intros Hq k n Hk. destruct (decide (q = k)) as [-> | Hne].
  - rewrite lookup_insert_eq. exists (File c). split; [done |].
    destruct Hq as [Hq | [c0 Hq]]; rewrite Hq in Hk; [done |].
    by injection Hk as <-.
  - rewrite lookup_insert_ne by done. exists n. split; [done |].
    apply same_kind_refl.
Qed.

Lemma is_dir_mono (fs fs' : gmap fspath node) p :
  fs ⊆ fs' -> exists_ fs p = true ->
  is_dir fs' p = is_dir fs p /\ exists_ fs' p = true.
Proof.
  intros Hsub. unfold exists_, is_dir, stat.
  destruct (resolve fs true p) as [q n | q | e] eqn:Hr; try done.
  intros _. by rewrite (resolve_found_mono _ _ _ _ _ _ Hsub Hr).
Qed.

Lemma copied_mono (fs fs' : gmap fspath node) src dst d c :
  fs ⊆ fs' -> copied fs src dst d c -> copied fs' src dst d c.
Proof.
  intros Hsub (qs & q & Hne & Hsrc & Hd & Heq & Hex).
  destruct (is_dir_mono _ _ _ Hsub Hex) as [Hdir Hex'].
  exists qs, q. rewrite Hdir.
  split; [done |].
  split; [exact (resolve_found_mono _ _ _ _ _ _ Hsub Hsrc) |].
  split; [exact (resolve_found_mono _ _ _ _ _ _ Hsub Hd) |].
  split; done.
Qed.

Lemma copy_step_Ok src dst s d s_b :
  copy_step src dst s = (Ok d, s_b) ->
  exists c, copied (files s_b) (fs_of src) (fs_of dst) d c
            /\ (forall c0, read_file (files s) (fs_of src) = Some c0 -> c0 = c)
            /\ extends (files s) (files s_b)
            /\ log s_b = log s.
Proof.
  unfold copy_step. intros H.
  apply bind_Ok in H as (ex & s0 & H0 & H).
  unfold Path_exists in H0. rewrite os_path_exists_eq in H0.
  injection H0 as <- <-.
  apply bind_Ok in H as ([] & s_a & Ha & H).
  assert (files s ⊆ files s_a /\ log s_a = log s) as [Hsub Hlog].
  { destruct (negb (exists_ (files s) (fs_of dst))).
    - eapply make_room_mono; eauto.
    - unfold ret in Ha. by injection Ha as <-. }
  clear Ha.
  apply shutil_copy_Ok in H as (Hd & Hsame & qs & c & q & Hsrc & Hdst & ->).
  exists c. cbn [files log].
  assert (files s_a !! qs = Some (File c)) as Hqs
    by (eapply resolve_found_lookup; eauto).
  assert (qs <> q) as Hne.
  { destruct Hdst as [Hdst | [c0 Hdst]].
    - apply resolve_missing_None in Hdst. congruence.
    - unfold samefile in Hsame. rewrite Hsrc, Hdst in Hsame.
      by apply bool_decide_eq_false_1 in Hsame. }
  assert (fs_ext : extends (files s_a) (<[q := File c]> (files s_a))).
  { apply insert_file_extends. destruct Hdst as [Hdst | [c0 Hdst]].
    - left. eapply resolve_missing_None; eauto.
    - right. exists c0. eapply resolve_found_lookup; eauto. }
  assert (resolve (<[q := File c]> (files s_a)) true d = Found q (File c)) as Hd'.
  { destruct Hdst as [Hdst | [c0 Hdst]].
    - apply resolve_missing_insert; auto.
    - pose proof (resolve_extends _ _ true d fs_ext) as Hw.
      rewrite Hdst in Hw. destruct Hw as (n' & -> & Hs & _ & Hn').
      destruct n' as [c' | |]; try (exfalso; exact Hs).
      rewrite lookup_insert_eq in Hn'. f_equal. symmetry.
      assert (Some (File c) = Some (File c')) as [= <-] by (by apply Hn').
      done. }
  assert (resolve (<[q := File c]> (files s_a)) true (fs_of src)
          = Found qs (File c)) as Hsrc'.
  { pose proof (resolve_extends _ _ true (fs_of src) fs_ext) as Hw.
    rewrite Hsrc in Hw. destruct Hw as (n' & -> & Hs & _ & Hn').
    destruct n' as [c' | |]; try (exfalso; exact Hs).
    rewrite lookup_insert_ne in Hn' by done. f_equal.
    assert (Some (File c') = Some (File c)) as [= <-]
      by (rewrite <- Hqs; symmetry; by apply Hn').
    done. }
  split; [| split; [| split; [| done]]].
  - exists qs, q. split; [done |]. split; [done |]. split; [done |].
    unfold is_dir, exists_, stat in *.
    destruct (resolve (files s_a) true (fs_of dst)) as [q' n | q' | e] eqn:Hr.
    + pose proof (resolve_extends _ _ true (fs_of dst) fs_ext) as Hw.
      rewrite Hr in Hw. destruct Hw as (n' & -> & Hs & _).
      destruct n, n'; try (exfalso; exact Hs); done.
    + subst d. by rewrite Hd'.
    + subst d. by rewrite Hd'.
  - intros c0. unfold read_file, stat.
    destruct (resolve (files s) true (fs_of src)) as [q0 n | |] eqn:Hr0; try done.
    rewrite (resolve_found_mono _ _ _ _ _ _ Hsub Hr0) in Hsrc.
    injection Hsrc as -> ->. by intros [= ->].
  - eapply extends_trans; [apply subseteq_extends, Hsub | done].
Qed.

Lemma copy_step_again src dst s d c :
  copied (files s) (fs_of src) (fs_of dst) d c ->
  copy_step src dst s = (Ok d, s).
Proof.
  intros (qs & q & Hne & Hsrc & Hd & Heq & Hex).
  unfold copy_step, bind, Path_exists. rewrite os_path_exists_eq, Hex.
  cbn [negb ret]. eapply shutil_copy_again; eauto.
Qed.

Lemma link_step_Ok macos_dst target s s1 :
  link_step macos_dst target s = (Ok tt, s1) ->
  files s ⊆ files s1 /\ log s1 = log s
  /\ (exists_ (files s) (fs_of macos_dst) = true -> s1 = s)
  /\ (exists_ (files s) (fs_of macos_dst) = false ->
      lstat (files s1) (fs_of macos_dst) = Some (Link (fs_of target))).
Proof.
  unfold link_step. intros H.
  apply bind_Ok in H as (ex & s0 & H0 & H).
  unfold Path_exists in H0. rewrite os_path_exists_eq in H0.
  injection H0 as <- <-.
  destruct (exists_ (files s) (fs_of macos_dst)) eqn:Hex; cbn [negb] in H.
  - unfold ret in H. injection H as <-. done.
  - apply bind_Ok in H as ([] & s_c & Hc & H).
    apply make_room_mono in Hc as [Hsub Hlog].
    unfold Path_symlink_to in H.
    apply os_symlink_Ok in H as (q & Hq & ->). cbn [files log].
    split; [| split; [done | split; [done |]]].
    + etrans; [exact Hsub |]. apply insert_subseteq.
      eapply resolve_missing_None; eauto.
    + intros _. unfold lstat.
      rewrite (resolve_missing_insert _ _ _ _ (Link (fs_of target)) Hq); auto.
Qed.

Lemma link_step_again macos_dst target s :
  exists_ (files s) (fs_of macos_dst) = true ->
  link_step macos_dst target s = (Ok tt, s).
Proof.
  intros Hex. unfold link_step, bind, Path_exists.
  by rewrite os_path_exists_eq, Hex.
Qed.

(** Copying and linking a second time, right after the first, is a no-op
    as soon as the MacOS path resolves. *)
Lemma copy_link_again src dst macos_dst s d s_b s1 :
  copy_step src dst s = (Ok d, s_b) ->
  link_step macos_dst dst s_b = (Ok tt, s1) ->
  exists_ (files s1) (fs_of macos_dst) = true ->
  copy_step src dst s1 = (Ok d, s1)
  /\ link_step macos_dst dst s1 = (Ok tt, s1).
Proof.
  intros Hc Hl Hex.
  apply copy_step_Ok in Hc as (c & Hcop & _).
  apply link_step_Ok in Hl as (Hsub & _).
  split; [| by apply link_step_again].
  eapply copy_step_again, copied_mono; eauto.
Qed.

(** ** The constructor *)

Lemma scan_exename_none t :
  Forall not_executable t -> scan_exename t = None.
Proof.
  induction 1 as [| [[i n] ty] t Hne _ IH]; [done |].
  simpl. unfold not_executable in Hne. simpl in Hne.
  destruct (String.eqb_spec ty "EXECUTABLE"); [done | exact IH].
Qed.

Lemma scan_exename_first l1 i n l2 :
  Forall not_executable l1 ->
  scan_exename (l1 ++ (i, n, "EXECUTABLE") :: l2) = Some n.
Proof.
  induction 1 as [| [[i' n'] ty] t Hne _ IH]; [done |].
  simpl. unfold not_executable in Hne. simpl in Hne.
  destruct (String.eqb_spec ty "EXECUTABLE"); [done | exact IH].
Qed.

(** The argument loop merges the manifests in order, logs the unsupported
    arguments and leaves every attribute taken from the keywords alone. *)
Lemma init_args_spec args :
  forall self s,
  exists self',
    init_args self args s
      = (Ok self', mkState (files s) (log s ++ flat_map arg_log args))
    /\ toc self' = toc self ++ flat_map arg_toc args
    /\ name self' = name self /\ appname self' = appname self
    /\ version self' = version self /\ icon self' = icon self
    /\ bundle_identifier self' = bundle_identifier self
    /\ info_plist self' = info_plist self
    /\ tocbasename self' = tocbasename self.
Proof.
  induction args as [| a args IH]; intros self s.
  - exists self. simpl. rewrite !app_nil_r, state_eta. by repeat split.
  - destruct a as [e | t | c | cls]; cbn [init_args init_arg];
      unfold bind at 1; cbn [ret].
    + edestruct IH as (self' & -> & Htoc & ?). exists self'.
      split; [done |]. split; [| done]. rewrite Htoc. cbn.
      by rewrite <- !app_assoc.
    + edestruct IH as (self' & -> & Htoc & ?). exists self'.
      split; [done |]. split; [| done]. rewrite Htoc. cbn.
      by rewrite <- !app_assoc.
    + edestruct IH as (self' & -> & Htoc & ?). exists self'.
      split; [done |]. split; [| done]. rewrite Htoc. cbn.
      by rewrite <- !app_assoc.
    + unfold bind, logger, ret. cbn.
      edestruct IH as (self' & -> & Htoc & ?). exists self'.
      cbn [files log]. rewrite <- app_assoc. split; [done |]. done.
Qed.

(** What the constructor builds on macOS when a name is given: it cannot
    fail, and the executable name is whatever the scan finds. *)
Lemma init_spec CONF module_file tb args kws nm s :
  kw_name kws = Some nm ->
  exists b,
    BUNDLE___init__ CONF module_file tb true args kws s
      = (Ok (Some b), mkState (files s) (log s ++ flat_map arg_log args))
    /\ toc b = merged_toc args
    /\ exename b = scan_exename (merged_toc args)
    /\ appname b = fst (posixpath.splitext (posixpath.basename nm))
    /\ name b = posixpath.join (distpath CONF) [posixpath.basename nm]
    /\ bundle_identifier b =
         (if truthy (kw_bundle_identifier kws)
          then default EmptyString (kw_bundle_identifier kws)
          else fst (posixpath.splitext (posixpath.basename nm)))
    /\ info_plist b = kw_info_plist kws.
Proof.
  intros Hnm. unfold BUNDLE___init__. cbn [negb]. rewrite Hnm.
  unfold bind.
  match goal with |- context [init_args ?b0 args s] =>
    destruct (init_args_spec args b0 s)
      as (b1 & -> & Htoc & Hname & Happ & _ & _ & Hid & Hpl & _)
  end.
  eexists. split; [reflexivity |]. cbn.
  rewrite Htoc, Hname, Happ, Hid, Hpl. cbn. done.
Qed.

(** ** The metadata descriptor *)

Lemma info_plist_defaults_Ok self icon_path exe s :
  exename self = Some exe ->
  exists d0,
    info_plist_defaults self icon_path s = (Ok d0, s)
    /\ d0 !! "CFBundleExecutable" = Some (PStr (posixpath.basename exe))
    /\ d0 !! "CFBundleIdentifier" = Some (PStr (bundle_identifier self))
    /\ d0 !! "CFBundleName" = Some (PStr (appname self))
    /\ d0 !! "CFBundleDisplayName" = Some (PStr (appname self))
    /\ d0 !! "CFBundleIconFile" = Some (PStr (posixpath.basename icon_path))
    /\ d0 !! "CFBundleShortVersionString" = Some (PStr (version self))
    /\ d0 !! "LSBackgroundOnly"
         = (if console self then Some (PBool true) else None)
    /\ d0 !! "NSHighResolutionCapable"
         = (if console self then None else Some (PBool true)).
Proof.
  intros Hexe. unfold info_plist_defaults. rewrite Hexe.
  eexists. split; [reflexivity |].
  destruct (console self); repeat split; reflexivity.
Qed.

Lemma merge_info_plist_override self d ov k v :
  info_plist self = Some ov -> ov !! k = Some v ->
  merge_info_plist self d !! k = Some v.
Proof.
  intros Hov Hk. unfold merge_info_plist. rewrite Hov.
  case_bool_decide as He.
  - subst ov. by rewrite lookup_empty in Hk.
  - by apply lookup_union_Some_l.
Qed.

Lemma merge_info_plist_default self d k :
  (forall ov, info_plist self = Some ov -> ov !! k = None) ->
  merge_info_plist self d !! k = d !! k.
Proof.
  intros Hk. unfold merge_info_plist.
  destruct (info_plist self) as [ov |]; [| done].
  case_bool_decide; [done |].
  apply lookup_union_r. by apply Hk.
Qed.

(** ** [pathlib] components *)

Lemma split_no_sep sep s :
  Forall (fun x => Str.contains sep x = false) (Str.split sep s).
Proof.
  induction s as [| a r IH]; cbn [Str.split].
  - by constructor.
  - destruct (Ascii.eqb a sep) eqn:Ha.
    + by constructor.
    + destruct (Str.split sep r) as [| h t].
      * constructor; [| done]. cbn. by rewrite Ha.
      * inversion IH as [| ? ? Hh Ht]; subst.
        constructor; [| done]. cbn. by rewrite Ha, Hh.
Qed.

Lemma split_without_sep sep x :
  Str.contains sep x = false -> Str.split sep x = [x].
Proof.
  induction x as [| a r IH]; [done |]. cbn.
  destruct (Ascii.eqb a sep); [done |]. cbn. intros Hr. by rewrite IH.
Qed.

(** Every component [Path(s)] keeps is non-empty, is not a single dot and
    has no separator in it. *)
Lemma of_str_components s :
  Forall (fun x => Str.nonempty x = true /\ x <> "."
                   /\ Str.contains posixpath.sep x = false)
         (p_tail (pathlib.of_str s)).
Proof.
  unfold pathlib.of_str. destruct (pathlib.splitroot s) as [root rel]. cbn.
  pose proof (split_no_sep posixpath.sep rel) as H.
  induction H as [| x l Hx _ IH]; cbn; [by constructor |].
  destruct (Str.nonempty x) eqn:Hne; cbn; [| exact IH].
  destruct (String.eqb_spec x "."); cbn; [exact IH |].
  constructor; [| exact IH]. done.
Qed.

(** A single component parses to the path that has just that component. *)
Lemma of_str_component x :
  Str.nonempty x = true -> x <> "." ->
  Str.contains posixpath.sep x = false ->
  pathlib.of_str x = mkPath EmptyString [x].
Proof.
  intros Hne Hdot Hsep. unfold pathlib.of_str, pathlib.splitroot.
  assert (Str.startswith posixpath.sep x = false) as ->.
  { destruct x as [| a r]; [done |]. cbn in *.
    by destruct (Ascii.eqb a posixpath.sep). }
  rewrite split_without_sep by done. cbn. rewrite Hne.
  destruct (String.eqb_spec x "."); [done |]. done.
Qed.

Lemma last_in_nonempty {A} (l : list A) d : l <> [] -> In (List.last l d) l.
Proof.
  induction l as [| a [| b l] IH]; [done | by left |].
  intros _. right. by apply IH.
Qed.

(** The flattening of line 190 leaves exactly the base name. *)
Lemma collapse_dotted s :
  dotted_parent (pathlib.of_str s) = true ->
  pathlib.of_str (pathlib.name (pathlib.of_str s))
    = mkPath EmptyString [pathlib.name (pathlib.of_str s)].
Proof.
  intros Hd.
  assert (p_tail (pathlib.of_str s) <> []) as Hne.
  { intros He. unfold dotted_parent, pathlib.parent, pathlib.parts in Hd.
    rewrite He in Hd. cbn in Hd.
    unfold pathlib.of_str, pathlib.splitroot in Hd.
    destruct (Str.startswith posixpath.sep s); [| done].
    destruct (_ =? 2)%nat; cbn in Hd; done. }
  pose proof (of_str_components s) as Hall.
  rewrite Forall_forall in Hall.
  destruct (Hall (pathlib.name (pathlib.of_str s))) as (H1 & H2 & H3).
  { apply list_elem_of_In. by apply last_in_nonempty. }
  by apply of_str_component.
Qed.

(** * The bundle builder against its specification *)

Section Claims.

Variable CONF : config.
Variable module_file : string.
Variable Target_tocbasename : string.
Variable _check_path_overlap : string -> M bool.
Variable _rmtree : string -> M unit.
Variable normalize_icon_type :
  string -> list string -> string -> string -> M string.
Variable abspath : string -> string.
Variable add_suffix_to_extension : string -> string -> string -> entry.
Variable checkCache :
  string -> bool -> bool -> list string -> string -> option string ->
  option string -> option string -> bool -> M string.
Variable sign_binary :
  string -> option string -> option string -> bool -> M unit.

Local Abbreviation init := (BUNDLE___init__ CONF module_file Target_tocbasename).
Local Abbreviation place := (place_entry add_suffix_to_extension checkCache).
Local Abbreviation scaffold_ :=
  (scaffold CONF _check_path_overlap _rmtree normalize_icon_type abspath).
Local Abbreviation assemble_unsigned_ :=
  (assemble_unsigned CONF _check_path_overlap _rmtree normalize_icon_type
     abspath add_suffix_to_extension checkCache).
Local Abbreviation assemble_ :=
  (assemble CONF _check_path_overlap _rmtree normalize_icon_type abspath
     add_suffix_to_extension checkCache sign_binary).




(** C5. The descriptor gets exactly one conditional default,
    [LSBackgroundOnly] for a console application and
    [NSHighResolutionCapable] otherwise, and then every key of the
    [info_plist] override has its override value in the final descriptor,
    the conditional defaults included; keys the override does not mention
    keep their value. *)
Theorem C5_overrides_win :
  forall self icon_path exe s,
    exename self = Some exe ->
    exists d0,
      info_plist_defaults self icon_path s = (Ok d0, s)
      /\ info_plist_dict self icon_path s
           = (Ok (merge_info_plist self d0), s)
      /\ d0 !! "LSBackgroundOnly"
           = (if console self then Some (PBool true) else None)
      /\ d0 !! "NSHighResolutionCapable"
           = (if console self then None else Some (PBool true))
      /\ (forall ov k v,
            info_plist self = Some ov -> ov !! k = Some v ->
            merge_info_plist self d0 !! k = Some v)
      /\ (forall k,
            (forall ov, info_plist self = Some ov -> ov !! k = None) ->
            merge_info_plist self d0 !! k = d0 !! k).
Proof.
  intros self icon_path exe s Hexe.
  destruct (info_plist_defaults_Ok self icon_path exe s Hexe)
    as (d0 & Hd0 & _ & _ & _ & _ & _ & _ & Hbg & Hhr).
  exists d0. split; [exact Hd0 |]. split.
  { unfold info_plist_dict, bind. by rewrite Hd0. }
  split; [exact Hbg |]. split; [exact Hhr |]. split.
  - intros ov k v. apply merge_info_plist_override.
  - apply merge_info_plist_default.
Qed.

(** C6. When the signing collaborator raises an [Exception] the run still
    ends in success: the exception is replaced by two warnings, followed
    by the record of completion, and the store is the one the signer left;
    so a signer that fails without writing leaves the tree of the run
    before signing. *)
Theorem C6_signing_failure_is_a_warning :
  forall self s s_u e s_f,
    assemble_unsigned_ self s = (Ok tt, s_u) ->
    sign_binary (name self) (codesign_identity self)
      (entitlements_file self) true
      (mkState (files s_u) (log s_u ++ [mkLog INFO "Signing the BUNDLE..." []]))
      = (Raise e, s_f) ->
    is_Exception e = true ->
    assemble_ self s
      = (Ok tt, mkState (files s_f) (log s_f ++ signing_failure_log self e))
    /\ (files s_f = files s_u ->
        files (snd (assemble_ self s))
          = files (snd (assemble_unsigned_ self s))).
Proof.
  intros self s s_u e s_f Hu Hsign Hexc.
  assert (assemble_ self s
      = (Ok tt, mkState (files s_f) (log s_f ++ signing_failure_log self e)))
    as Hrun.
  { unfold assemble, bind at 1. rewrite Hu.
    unfold sign_bundle, bind, logger, try_except. cbn [files log].
    rewrite Hsign, Hexc. cbn [files log]. unfold signing_failure_log.
    by rewrite <- !app_assoc. }
  split; [exact Hrun |].
  intros Hsame. by rewrite Hrun, Hu.
Qed.

(** C8 (as the code has it). Without a bundle identifier (absent or
    empty) the identifier is the application name itself, unchanged, and
    the application name is the base name of the [name] keyword without
    its extension. *)
Theorem C8_identifier_defaults_to_appname :
  forall args kws nm s,
    kw_name kws = Some nm ->
    truthy (kw_bundle_identifier kws) = false ->
    exists b s',
      init true args kws s = (Ok (Some b), s')
      /\ appname b = fst (posixpath.splitext (posixpath.basename nm))
      /\ bundle_identifier b = appname b.
Proof.
  intros args kws nm s Hnm Hid.
  destruct (init_spec CONF module_file Target_tocbasename args kws nm s Hnm)
    as (b & Hinit & _ & _ & Happ & _ & Hbid & _).
  exists b. eexists. split; [exact Hinit |]. split; [exact Happ |].
  rewrite Hbid, Hid. by rewrite Happ.
Qed.

(** C9 (as the code has it). The executable-file-name key of the
    descriptor holds the base name of the source path (the second field)
    of the first EXECUTABLE entry of the manifest, unless the [info_plist]
    override has that key. *)
Theorem C9_executable_key_is_source_basename :
  forall args kws nm s l1 i n l2,
    kw_name kws = Some nm ->
    merged_toc args = l1 ++ (i, n, "EXECUTABLE") :: l2 ->
    Forall not_executable l1 ->
    exists b s',
      init true args kws s = (Ok (Some b), s')
      /\ forall icon_path st,
           exists d,
             info_plist_dict b icon_path st = (Ok d, st)
             /\ ((forall ov, kw_info_plist kws = Some ov ->
                             ov !! "CFBundleExecutable" = None) ->
                 d !! "CFBundleExecutable"
                   = Some (PStr (posixpath.basename n))).
Proof.
  intros args kws nm s l1 i n l2 Hnm Hm Hl1.
  destruct (init_spec CONF module_file Target_tocbasename args kws nm s Hnm)
    as (b & Hinit & _ & Hexe & _ & _ & _ & Hpl).
  exists b. eexists. split; [exact Hinit |].
  intros icon_path st.
  assert (exename b = Some n) as He
    by (rewrite Hexe, Hm; by apply scan_exename_first).
  destruct (info_plist_defaults_Ok b icon_path n st He) as (d0 & Hd0 & Hkey & _).
  exists (merge_info_plist b d0). split.
  { unfold info_plist_dict, bind. by rewrite Hd0. }
  intros Hov. rewrite merge_info_plist_default; [exact Hkey |].
  intros ov Hb. apply Hov. by rewrite <- Hpl.
Qed.


End Claims.

(** * The placement engine *)

Section Placement.

Variable add_suffix_to_extension : string -> string -> string -> entry.
Variable checkCache :
  string -> bool -> bool -> list string -> string -> option string ->
  option string -> option string -> bool -> M string.

Local Abbreviation place := (place_entry add_suffix_to_extension checkCache).

(** The request the binary path sends to the cache. *)
Local Abbreviation cache_request self src inm_ typ ux :=
  (checkCache (pathlib.str src) (strip self) (upx self) ux
     (pathlib.str (collapse inm_)) (target_arch self)
     (codesign_identity self) (entitlements_file self)
     (String.eqb typ "EXTENSION")).

Local Abbreviation frame_dst self inm_ :=
  (pathlib.joinpath (frameworks_path self) (collapse inm_)).
Local Abbreviation macos_of self p := (pathlib.joinpath (macos_path self) p).
Local Abbreviation res_dst self inm_ :=
  (pathlib.joinpath (resources_path self) inm_).

Lemma place_entry_binary self inm fnm typ inm' fnm' typ' :
  add_suffix_to_extension inm fnm typ = (inm', fnm', typ') ->
  classify typ' (pathlib.of_str inm') = BinaryPath ->
  place self (inm, fnm, typ)
    = binary_path checkCache self (pathlib.of_str inm') (pathlib.of_str fnm') typ'.
Proof.
  intros Hadd Hc. unfold place_entry. rewrite Hadd. unfold classify in Hc.
  destruct (String.eqb typ' "EXTENSION"); [done |].
  destruct (String.eqb typ' "BINARY"); [done |].
  destruct (String.eqb typ' "DATA"); [| done].
  destruct (String.eqb (pathlib.suffix (pathlib.of_str inm')) ".so"); done.
Qed.

Lemma place_entry_data self inm fnm typ inm' fnm' typ' :
  add_suffix_to_extension inm fnm typ = (inm', fnm', typ') ->
  classify typ' (pathlib.of_str inm') = DataPath ->
  place self (inm, fnm, typ)
    = data_path self (pathlib.of_str inm') (pathlib.of_str fnm')
  /\ String.eqb (pathlib.suffix (pathlib.of_str inm')) ".so" = false.
Proof.
  intros Hadd Hc. unfold place_entry. rewrite Hadd. unfold classify in Hc.
  destruct (String.eqb typ' "EXTENSION"); [done |].
  destruct (String.eqb typ' "BINARY"); [done |].
  destruct (String.eqb typ' "DATA"); [| done].
  destruct (String.eqb (pathlib.suffix (pathlib.of_str inm')) ".so"); done.
Qed.

(** The binary path is: read [upx_exclude], ask the cache, copy, link. *)
Lemma binary_path_Ok self inm_ src typ s s1 :
  binary_path checkCache self inm_ src typ s = (Ok tt, s1) ->
  exists ux cached s0 d s_b,
    upx_exclude self = Some ux
    /\ cache_request self src inm_ typ ux s = (Ok cached, s0)
    /\ copy_step (pathlib.of_str cached) (frame_dst self inm_) s0 = (Ok d, s_b)
    /\ link_step (macos_of self (collapse inm_)) (frame_dst self inm_) s_b
         = (Ok tt, s1).
Proof.
  unfold binary_path. intros H.
  apply bind_Ok in H as (ux & s' & Hux & H).
  destruct (upx_exclude self) as [ux' |] eqn:Hu; [| discriminate Hux].
  unfold ret in Hux. injection Hux as -> <-.
  apply bind_Ok in H as (cached & s0 & Hcache & H).
  exists ux, cached, s0.
  apply bind_Ok in H as (ex & sx & Hex & H).
  unfold Path_exists in Hex. rewrite os_path_exists_eq in Hex.
  injection Hex as <- <-.
  apply bind_Ok in H as ([] & s_a & Hroom & H).
  apply bind_Ok in H as (d & s_b & Hcopy & H).
  exists d, s_b. split; [done |]. split; [exact Hcache |]. split.
  - unfold copy_step, bind, Path_exists. rewrite os_path_exists_eq.
    rewrite Hroom. exact Hcopy.
  - exact H.
Qed.

Lemma binary_path_again self inm_ src typ ux cached d s :
  upx_exclude self = Some ux ->
  cache_request self src inm_ typ ux s = (Ok cached, s) ->
  copy_step (pathlib.of_str cached) (frame_dst self inm_) s = (Ok d, s) ->
  link_step (macos_of self (collapse inm_)) (frame_dst self inm_) s
    = (Ok tt, s) ->
  binary_path checkCache self inm_ src typ s = (Ok tt, s).
Proof.
  intros Hux Hcache Hcopy Hlink. unfold binary_path. rewrite Hux.
  unfold bind at 1. cbn [ret]. unfold bind at 1. rewrite Hcache.
  unfold copy_step in Hcopy. unfold bind at 1 in Hcopy.
  unfold bind at 1.
  destruct (Path_exists (frame_dst self inm_) s) as [[ex | e] sx];
    [| discriminate Hcopy].
  unfold bind at 1 in Hcopy. unfold bind at 1.
  destruct ((if negb ex then make_room (frame_dst self inm_) else ret tt) sx)
    as [[[] | e] s_a]; [| discriminate Hcopy].
  unfold bind at 1. rewrite Hcopy. exact Hlink.
Qed.

(** The data path, when it does not skip, is: copy, link. *)
Lemma data_path_unfold self inm_ src :
  dotted_parent inm_ = false ->
  String.eqb (pathlib.suffix inm_) ".so" = false ->
  forall s,
    data_path self inm_ src s
    = bind (copy_step src (res_dst self inm_))
        (fun _ => link_step (macos_of self inm_) (res_dst self inm_)) s.
Proof.
  intros Hd Hs s. unfold data_path. rewrite Hd, Hs. cbn [orb].
  unfold copy_step, link_step, bind.
  destruct (Path_exists (res_dst self inm_) s) as [[ex | e] sx]; [| done].
  destruct ((if negb ex then make_room (res_dst self inm_) else ret tt) sx)
    as [[[] | e] s_a]; done.
Qed.

(** After a copy followed by a link, the copy is in place. *)
Lemma copy_link_lands src dst macos_dst s d s_b s1 :
  copy_step src dst s = (Ok d, s_b) ->
  link_step macos_dst dst s_b = (Ok tt, s1) ->
  exists c,
    read_file (files s1) d = Some c
    /\ (forall c0, read_file (files s) (fs_of src) = Some c0 -> c0 = c)
    /\ d = (if is_dir (files s1) (fs_of dst)
            then fs_of dst ++ [List.last (fs_of src) EmptyString]
            else fs_of dst)
    /\ exists_ (files s1) (fs_of dst) = true.
Proof.
  intros Hc Hl.
  apply copy_step_Ok in Hc as (c & Hcop & Hsrc & _).
  apply link_step_Ok in Hl as (Hsub & _).
  apply (copied_mono _ _ _ _ _ _ Hsub) in Hcop
    as (qs & q & _ & _ & Hd & Heq & Hex).
  exists c. split; [| done].
  unfold read_file, stat. by rewrite Hd.
Qed.

(** C1 (as the code has it). In the binary path the copy into
    FrameworksDir is made for every entry, whether or not the destination
    exists: after a successful placement the destination holds the
    processed source of that entry, whatever an earlier entry put there.
    Only the link from MacOSDir is guarded by an existence test.  Placing
    the same entry once more right afterwards leaves the tree and the log
    as they are, provided the cache answers the repeated request with the
    same file without writing and the MacOSDir path resolves. *)
Theorem C1_binary_path_copies_always_links_once :
  forall self inm fnm typ inm' fnm' typ' s s1,
    add_suffix_to_extension inm fnm typ = (inm', fnm', typ') ->
    classify typ' (pathlib.of_str inm') = BinaryPath ->
    place self (inm, fnm, typ) s = (Ok tt, s1) ->
    let inm_ := pathlib.of_str inm' in
    let src := pathlib.of_str fnm' in
    (forall ux cached s0 c0,
        upx_exclude self = Some ux ->
        cache_request self src inm_ typ' ux s = (Ok cached, s0) ->
        read_file (files s0) (os_path cached) = Some c0 ->
        is_dir (files s1) (fs_of (frame_dst self inm_)) = false ->
        read_file (files s1) (fs_of (frame_dst self inm_)) = Some c0)
    /\ ((forall ux cached s0,
           upx_exclude self = Some ux ->
           cache_request self src inm_ typ' ux s = (Ok cached, s0) ->
           cache_request self src inm_ typ' ux s1 = (Ok cached, s1)) ->
        exists_ (files s1) (fs_of (macos_of self (collapse inm_))) = true ->
        place self (inm, fnm, typ) s1 = (Ok tt, s1)).
Proof.
  intros self inm fnm typ inm' fnm' typ' s s1 Hadd Hcl Hrun inm_ src.
  rewrite (place_entry_binary _ _ _ _ _ _ _ Hadd Hcl) in Hrun |- *.
  fold inm_ src in Hrun |- *.
  apply binary_path_Ok in Hrun
    as (ux & cached & s0 & d & s_b & Hux & Hcache & Hcopy & Hlink).
  split.
  - intros ux' cached' s0' c0 Hux' Hcache' Hread Hnd.
    rewrite Hux in Hux'. injection Hux' as <-.
    rewrite Hcache in Hcache'. injection Hcache' as <- <-.
    destruct (copy_link_lands _ _ _ _ _ _ _ Hcopy Hlink)
      as (c & Hc & Hsrc & Hd & _).
    rewrite Hnd in Hd. subst d. rewrite Hc. f_equal. symmetry.
    by apply Hsrc.
  - intros Hhit Hex.
    destruct (copy_link_again _ _ _ _ _ _ _ Hcopy Hlink Hex) as [Hc2 Hl2].
    eapply binary_path_again; eauto.
Qed.


(** C7. In the binary path an internal name whose parent has a dotted
    segment is reduced to its base name, so the destination is directly
    under FrameworksDir; a relative internal name without such a segment
    keeps all its components under FrameworksDir.  After a successful
    placement the destination exists and, unless it is a directory, holds
    the processed source. *)
Theorem C7_dotted_parent_flattens :
  forall self inm fnm typ inm' fnm' typ',
    add_suffix_to_extension inm fnm typ = (inm', fnm', typ') ->
    classify typ' (pathlib.of_str inm') = BinaryPath ->
    let inm_ := pathlib.of_str inm' in
    let src := pathlib.of_str fnm' in
    (dotted_parent inm_ = true ->
     fs_of (frame_dst self inm_)
       = fs_of (frameworks_path self) ++ [pathlib.name inm_])
    /\ (dotted_parent inm_ = false -> p_root inm_ = EmptyString ->
        fs_of (frame_dst self inm_)
          = fs_of (frameworks_path self) ++ p_tail inm_)
    /\ (forall s s1,
          place self (inm, fnm, typ) s = (Ok tt, s1) ->
          exists_ (files s1) (fs_of (frame_dst self inm_)) = true
          /\ (is_dir (files s1) (fs_of (frame_dst self inm_)) = false ->
              exists ux cached s0 c,
                upx_exclude self = Some ux
                /\ cache_request self src inm_ typ' ux s = (Ok cached, s0)
                /\ read_file (files s1) (fs_of (frame_dst self inm_)) = Some c
                /\ (forall c0,
                      read_file (files s0) (os_path cached) = Some c0 ->
                      c0 = c))).
Proof.
  intros self inm fnm typ inm' fnm' typ' Hadd Hcl inm_ src.
  split; [| split].
  - intros Hd. unfold collapse. rewrite Hd.
    unfold inm_ in *. rewrite (collapse_dotted _ Hd). reflexivity.
  - intros Hd Hroot. unfold collapse. rewrite Hd.
    unfold pathlib.joinpath. rewrite Hroot. reflexivity.
  - intros s s1 Hrun.
    rewrite (place_entry_binary _ _ _ _ _ _ _ Hadd Hcl) in Hrun.
    fold inm_ src in Hrun.
    apply binary_path_Ok in Hrun
      as (ux & cached & s0 & d & s_b & Hux & Hcache & Hcopy & Hlink).
    destruct (copy_link_lands _ _ _ _ _ _ _ Hcopy Hlink)
      as (c & Hc & Hsrc & Hd & Hex).
    split; [exact Hex |].
    intros Hnd. rewrite Hnd in Hd. subst d.
    exists ux, cached, s0, c. done.
Qed.

End Placement.

(** * Further properties of the constructor *)

Section Constructor.

Variable CONF : config.
Variable module_file : string.
Variable Target_tocbasename : string.

Local Abbreviation init := (BUNDLE___init__ CONF module_file Target_tocbasename).


Lemma init_args_settings args :
  forall self s,
  exists self' s',
    init_args self args s = (Ok self', s')
    /\ settings_of self'
       = fold_left (fun cur a => default cur (arg_settings a)) args
           (settings_of self).
Proof.
  induction args as [| a args IH]; intros self s.
  - exists self, s. done.
  - destruct a as [e | t | c | cls]; cbn [init_args init_arg fold_left];
      unfold bind at 1; cbn [ret].
    + edestruct IH as (self' & s' & -> & Hs). exists self', s'.
      split; [done |]. exact Hs.
    + edestruct IH as (self' & s' & -> & Hs). exists self', s'.
      split; [done |]. rewrite Hs. by destruct self.
    + edestruct IH as (self' & s' & -> & Hs). exists self', s'.
      split; [done |]. exact Hs.
    + unfold bind, logger, ret. cbn.
      edestruct IH as (self' & s' & -> & Hs). exists self', s'.
      split; [done |]. exact Hs.
Qed.

Lemma fold_settings_none post cur :
  Forall (fun a => arg_settings a = None) post ->
  fold_left (fun cur a => default cur (arg_settings a)) post cur = cur.
Proof.
  intros H. revert cur. induction H as [| a post Ha _ IH]; intros cur; [done |].
  cbn. rewrite Ha. cbn. apply IH.
Qed.

(** Of several [EXE] and [COLLECT] arguments the last one decides the
    strip, UPX, console, architecture and signing attributes; manifests and
    unsupported arguments hand over nothing, and without any [EXE] or
    [COLLECT] the attributes keep their initial values, [upx_exclude]
    staying unset. *)
Theorem last_descriptor_wins :
  forall args kws nm s,
    kw_name kws = Some nm ->
    exists b s',
      init true args kws s = (Ok (Some b), s')
      /\ (forall pre a post st,
            args = pre ++ a :: post ->
            arg_settings a = Some st ->
            Forall (fun x => arg_settings x = None) post ->
            settings_of b = st)
      /\ (Forall (fun x => arg_settings x = None) args ->
          settings_of b = default_settings).
Proof.
  intros args kws nm s Hnm. unfold BUNDLE___init__. cbn [negb]. rewrite Hnm.
  unfold bind.
  match goal with |- context [init_args ?b0 args s] =>
    destruct (init_args_settings args b0 s) as (b1 & s1 & -> & Hset)
  end.
  eexists. exists s1. split; [reflexivity |].
  unfold settings_of in *. cbn in *. split.
  - intros pre a post st -> Ha Hpost. rewrite Hset.
    rewrite fold_left_app. cbn. rewrite Ha. cbn.
    by apply fold_settings_none.
  - intros Hall. rewrite Hset. by apply fold_settings_none.
Qed.

End Constructor.

(** The scan for the executable name, characterised: it returns [n]
    exactly when the manifest has an EXECUTABLE row with source [n] before
    which no row is EXECUTABLE, and nothing exactly when no row is. *)
Theorem scan_exename_iff :
  forall t,
    (forall n,
       scan_exename t = Some n <->
       exists l1 i l2,
         t = l1 ++ (i, n, "EXECUTABLE") :: l2 /\ Forall not_executable l1)
    /\ (scan_exename t = None <-> Forall not_executable t).
Proof.
  intros t.
  assert (forall n, scan_exename t = Some n ->
            exists l1 i l2,
              t = l1 ++ (i, n, "EXECUTABLE") :: l2 /\ Forall not_executable l1)
    as Hfound.
  { induction t as [| [[i0 n0] ty] t IH]; intros n; [done |]. cbn.
    destruct (String.eqb_spec ty "EXECUTABLE") as [-> | Hne].
    - intros [= ->]. by exists [], i0, t.
    - intros Hs. destruct (IH n Hs) as (l1 & i & l2 & -> & Hl1).
      exists ((i0, n0, ty) :: l1), i, l2. split; [done |].
      constructor; [exact Hne | exact Hl1]. }
  split.
  - intros n. split; [apply Hfound |].
    intros (l1 & i & l2 & -> & Hl1). by apply scan_exename_first.
  - split; [| apply scan_exename_none].
    intros Hnone. induction t as [| [[i0 n0] ty] t IH]; [constructor |].
    cbn in Hnone. destruct (String.eqb_spec ty "EXECUTABLE") as [-> | Hne];
      [done |].
    constructor; [exact Hne |]. apply IH; [| exact Hnone].
    intros n Hs. destruct (Hfound n) as (l1 & i & l2 & Heq & Hl1).
    { cbn. destruct (String.eqb_spec ty "EXECUTABLE"); [done | exact Hs]. }
    congruence.
Qed.

(** * Further properties of names and paths *)

Lemma append_cons a x y : String a x +:+ y = String a (x +:+ y).
Proof. reflexivity. Qed.

Lemma take_drop n s : Str.take n s +:+ Str.drop n s = s.
Proof.
  revert s. induction n as [| n IH]; intros [| a r]; try reflexivity.
  cbn [Str.take Str.drop]. rewrite append_cons. f_equal. apply IH.
Qed.

Lemma contains_take c n s :
  Str.contains c s = false -> Str.contains c (Str.take n s) = false.
Proof.
  revert s. induction n as [| n IH]; intros [| a r]; cbn; try done.
  intros H. apply orb_false_iff in H as [-> Hr]. cbn. by apply IH.
Qed.

(** What [rfind] returns: [-1] when the character does not occur, and
    otherwise the index of an occurrence after which there is none. *)
Lemma rfind_spec s c :
  (-1 <= Str.rfind s c)%Z
  /\ (Str.rfind s c = (-1)%Z -> Str.contains c s = false)
  /\ ((0 <= Str.rfind s c)%Z ->
      exists rest,
        Str.drop (Z.to_nat (Str.rfind s c)) s = String c rest
        /\ Str.contains c rest = false).
Proof.
  induction s as [| a r (Hlo & Hnone & Hsome)]; cbn [Str.rfind].
  - split; [lia |]. split; [done | lia].
  - destruct (Z.leb_spec 0 (Str.rfind r c)) as [Hge | Hlt].
    + split; [lia |]. split; [lia |]. intros _.
      destruct (Hsome Hge) as (rest & Hd & Hc). exists rest. split; [| done].
      replace (Z.to_nat (Str.rfind r c + 1)) with (S (Z.to_nat (Str.rfind r c)))
        by lia.
      exact Hd.
    + assert (Str.rfind r c = (-1)%Z) as Hm by lia.
      destruct (Ascii.eqb_spec a c) as [-> | Hne].
      * split; [lia |]. split; [lia |]. intros _. exists r. split; [done |].
        by apply Hnone.
      * split; [lia |]. split; [| lia]. intros _. cbn.
        rewrite (proj2 (Ascii.eqb_neq a c) Hne). by apply Hnone.
Qed.

(** [os.path.basename] never returns a path separator. *)
Lemma basename_no_sep p :
  Str.contains posixpath.sep (posixpath.basename p) = false.
Proof.
  unfold posixpath.basename.
  destruct (rfind_spec p posixpath.sep) as (Hlo & Hnone & Hsome).
  destruct (Z.leb_spec 0 (Str.rfind p posixpath.sep)) as [Hge | Hlt].
  - destruct (Hsome Hge) as (rest & Hd & Hc).
    replace (Z.to_nat (Str.rfind p posixpath.sep + 1))
      with (S (Z.to_nat (Str.rfind p posixpath.sep))) by lia.
    assert (forall n s a r, Str.drop n s = String a r -> Str.drop (S n) s = r)
      as Hstep.
    { induction n as [| n IH]; intros [| a0 r0] a r; cbn; try done.
      - by intros [= _ ->].
      - apply IH. }
    by rewrite (Hstep _ _ _ _ Hd).
  - assert (Str.rfind p posixpath.sep = (-1)%Z) as Hm by lia.
    rewrite Hm. cbn. by apply Hnone.
Qed.

Lemma splitext_loop_cases n p i d :
  posixpath.splitext_loop n p i d = (p, EmptyString)
  \/ posixpath.splitext_loop n p i d
     = (Str.take (Z.to_nat d) p, Str.drop (Z.to_nat d) p).
Proof.
  revert i. induction n as [| n IH]; intros i; cbn; [by left |].
  destruct (i <? d)%Z; [| by left].
  destruct (negb _); [by right | apply IH].
Qed.

Lemma splitext_cases p :
  posixpath.splitext p = (p, EmptyString)
  \/ ((0 <= Str.rfind p posixpath.extsep)%Z
      /\ posixpath.splitext p
         = (Str.take (Z.to_nat (Str.rfind p posixpath.extsep)) p,
            Str.drop (Z.to_nat (Str.rfind p posixpath.extsep)) p)).
Proof.
  unfold posixpath.splitext.
  destruct (Z.ltb_spec (Str.rfind p posixpath.sep) (Str.rfind p posixpath.extsep))
    as [Hlt | Hge]; [| by left].
  destruct (splitext_loop_cases
              (Z.to_nat (Str.rfind p posixpath.extsep
                         - (Str.rfind p posixpath.sep + 1))) p
              (Str.rfind p posixpath.sep + 1)%Z
              (Str.rfind p posixpath.extsep)) as [-> | ->]; [by left |].
  right. split; [| done].
  pose proof (proj1 (rfind_spec p posixpath.sep)). lia.
Qed.

Lemma append_empty_r s : s +:+ EmptyString = s.
Proof.
  induction s as [| a r IH]; [reflexivity |].
  rewrite append_cons. f_equal. exact IH.
Qed.

(** [os.path.splitext] splits: root and extension concatenate back to the
    path, and the extension is empty or begins with the last dot of the
    path and has no other dot. *)
Lemma splitext_spec p :
  fst (posixpath.splitext p) +:+ snd (posixpath.splitext p) = p
  /\ (snd (posixpath.splitext p) = EmptyString
      \/ exists rest,
           snd (posixpath.splitext p) = String posixpath.extsep rest
           /\ Str.contains posixpath.extsep rest = false).
Proof.
  destruct (splitext_cases p) as [-> | [Hge ->]]; cbn [fst snd].
  - split; [apply append_empty_r | by left].
  - split; [apply take_drop |]. right.
    destruct (rfind_spec p posixpath.extsep) as (_ & _ & Hsome).
    exact (Hsome Hge).
Qed.

(** The application name and the bundle path, from the [name] keyword
    (lines 51-55): the name's directory part is dropped, the bundle lies in
    the distribution directory under the base name, and the application name
    is the base name short of its last extension, free of path separators. *)
Theorem appname_from_name :
  forall CONF module_file tb args kws nm s,
    kw_name kws = Some nm ->
    exists b s',
      BUNDLE___init__ CONF module_file tb true args kws s = (Ok (Some b), s')
      /\ name b = posixpath.join2 (distpath CONF) (posixpath.basename nm)
      /\ appname b +:+ snd (posixpath.splitext (posixpath.basename nm))
         = posixpath.basename nm
      /\ Str.contains posixpath.sep (appname b) = false
      /\ (snd (posixpath.splitext (posixpath.basename nm)) = EmptyString
          \/ exists rest,
               snd (posixpath.splitext (posixpath.basename nm))
                 = String posixpath.extsep rest
               /\ Str.contains posixpath.extsep rest = false).
Proof.
  intros CONF module_file tb args kws nm s Hnm.
  destruct (init_spec CONF module_file tb args kws nm s Hnm)
    as (b & Hinit & _ & _ & Happ & Hname & _).
  exists b. eexists. split; [exact Hinit |]. split; [exact Hname |].
  destruct (splitext_spec (posixpath.basename nm)) as [Hcat Hext].
  rewrite Happ. split; [exact Hcat |]. split; [| exact Hext].
  destruct (splitext_cases (posixpath.basename nm)) as [-> | [_ ->]];
    cbn [fst].
  - apply basename_no_sep.
  - apply contains_take, basename_no_sep.
Qed.

(** ** Parsing, printing and joining paths *)

Lemma split_nonempty sep s : Str.split sep s <> [].
Proof.
  destruct s as [| a r]; cbn; [done |].
  destruct (Ascii.eqb a sep); [done |]. by destruct (Str.split sep r).
Qed.

Lemma split_app_sep sep a y :
  Str.split sep (a +:+ String sep y) = Str.split sep a ++ Str.split sep y.
Proof.
  induction a as [| c a IH].
  - change (EmptyString +:+ String sep y) with (String sep y).
    cbn [Str.split]. by rewrite Ascii.eqb_refl.
  - rewrite append_cons. cbn [Str.split]. rewrite IH.
    destruct (Ascii.eqb c sep); [done |].
    pose proof (split_nonempty sep a) as Hne.
    by destruct (Str.split sep a).
Qed.

Lemma tail_of_str s :
  p_tail (pathlib.of_str s) = filter keeps (Str.split posixpath.sep s).
Proof.
  unfold pathlib.of_str, pathlib.splitroot.
  assert (forall r, filter keeps (Str.split posixpath.sep (Str.lstrip posixpath.sep r))
                    = filter keeps (Str.split posixpath.sep r)) as Hl.
  { induction r as [| c r IH]; [done |]. cbn [Str.lstrip].
    destruct (Ascii.eqb c posixpath.sep) eqn:Hc; [| done].
    rewrite IH. cbn [Str.split]. rewrite Hc.
    rewrite filter_cons_False; [done |]. cbn. tauto. }
  destruct (Str.startswith posixpath.sep s); [| done].
  destruct (_ =? 2)%nat; cbn [p_tail]; apply Hl.
Qed.

Lemma filter_keeps_all l :
  Forall (fun x => Str.nonempty x = true /\ x <> "."
                   /\ Str.contains posixpath.sep x = false) l ->
  filter keeps l = l.
Proof.
  induction 1 as [| x l (Hne & Hdot & _) _ IH]; [done |].
  rewrite filter_cons_True; [by rewrite IH |].
  unfold keeps. rewrite Hne. by destruct (String.eqb_spec x ".").
Qed.

Lemma split_join l :
  l <> [] ->
  Forall (fun x => Str.contains posixpath.sep x = false) l ->
  Str.split posixpath.sep (Str.join "/" l) = l.
Proof.
  intros Hne H. induction H as [| x l Hx Hl IH]; [done |].
  destruct l as [| y l].
  - cbn. by apply split_without_sep.
  - change (Str.join "/" (x :: y :: l))
      with (x +:+ String posixpath.sep (Str.join "/" (y :: l))).
    rewrite split_app_sep, split_without_sep by done.
    cbn. f_equal. by apply IH.
Qed.

Lemma of_str_well_formed s : well_formed (pathlib.of_str s).
Proof.
  split; [| apply of_str_components].
  unfold pathlib.of_str, pathlib.splitroot.
  destruct (Str.startswith posixpath.sep s); [| by left].
  destruct (_ =? 2)%nat; cbn; auto.
Qed.

Lemma join_starts l :
  l <> [] ->
  Forall (fun x => Str.nonempty x = true /\ x <> "."
                   /\ Str.contains posixpath.sep x = false) l ->
  Str.startswith posixpath.sep (Str.join "/" l) = false
  /\ Str.lstrip posixpath.sep (Str.join "/" l) = Str.join "/" l.
Proof.
  intros Hne H. destruct H as [| x l (Hx & _ & Hs) _]; [done |].
  destruct x as [| c x]; [done |]. cbn in Hs.
  apply orb_false_iff in Hs as [Hc _]. unfold posixpath.sep in *.
  destruct l as [| y l];
    [| change (Str.join "/" (String c x :: y :: l))
         with (String c (x +:+ "/" +:+ Str.join "/" (y :: l)))];
    cbn [Str.join Str.startswith Str.lstrip]; by rewrite Hc.
Qed.

(** Printing a parsed path and parsing it again gives the same path: what
    [str(fnm)] and [str(inm_)] hand to the cache names the path that was
    parsed, and [Path(...)] of it is that path. *)
Theorem str_of_str_round_trip :
  forall s,
    well_formed (pathlib.of_str s)
    /\ pathlib.of_str (pathlib.str (pathlib.of_str s)) = pathlib.of_str s.
Proof.
  intros s. split; [apply of_str_well_formed |].
  destruct (of_str_well_formed s) as [Hroot Htail].
  destruct (pathlib.of_str s) as [root tl]. cbn in Hroot, Htail.
  assert (Forall (fun x => Str.contains posixpath.sep x = false) tl) as Hsep.
  { eapply Forall_impl; [exact Htail |]. by intros x (_ & _ & ?). }
  destruct tl as [| x tl].
  - destruct Hroot as [-> | [-> | ->]]; reflexivity.
  - destruct (join_starts (x :: tl) ltac:(done) Htail) as [Hst Hls].
    unfold pathlib.of_str, pathlib.str, pathlib.splitroot.
    cbn [p_root p_tail].
    destruct Hroot as [-> | [-> | ->]].
    + change (EmptyString +:+ Str.join "/" (x :: tl))
        with (Str.join "/" (x :: tl)).
      rewrite Hst. rewrite split_join by done.
      f_equal. by apply filter_keeps_all.
    + change ("/" +:+ Str.join "/" (x :: tl))
        with (String posixpath.sep (Str.join "/" (x :: tl))).
      cbn [Str.startswith Str.lstrip]. rewrite Ascii.eqb_refl. rewrite Hls.
      cbn [String.length].
      replace (S (String.length (Str.join "/" (x :: tl)))
               - String.length (Str.join "/" (x :: tl))) with 1 by lia.
      cbn [Nat.eqb]. rewrite split_join by done.
      f_equal. by apply filter_keeps_all.
    + change ("//" +:+ Str.join "/" (x :: tl))
        with (String posixpath.sep
                (String posixpath.sep (Str.join "/" (x :: tl)))).
      cbn [Str.startswith Str.lstrip]. rewrite !Ascii.eqb_refl. rewrite Hls.
      cbn [String.length].
      replace (S (S (String.length (Str.join "/" (x :: tl))))
               - String.length (Str.join "/" (x :: tl))) with 2 by lia.
      cbn [Nat.eqb]. rewrite split_join by done.
      f_equal. by apply filter_keeps_all.
Qed.

(** The flattening of the binary path on a parsed internal name: the result
    never has a dotted parent segment; when the name had one, the result is
    the single component [name], so that two internal names with dotted
    parents and the same base name are sent to the same place. *)
Theorem collapse_spec :
  forall s,
    dotted_parent (collapse (pathlib.of_str s)) = false
    /\ (dotted_parent (pathlib.of_str s) = true ->
        collapse (pathlib.of_str s)
          = mkPath EmptyString [pathlib.name (pathlib.of_str s)])
    /\ (dotted_parent (pathlib.of_str s) = false ->
        collapse (pathlib.of_str s) = pathlib.of_str s)
    /\ (forall s',
          dotted_parent (pathlib.of_str s) = true ->
          dotted_parent (pathlib.of_str s') = true ->
          pathlib.name (pathlib.of_str s) = pathlib.name (pathlib.of_str s') ->
          collapse (pathlib.of_str s) = collapse (pathlib.of_str s')).
Proof.
  intros s. unfold collapse.
  destruct (dotted_parent (pathlib.of_str s)) eqn:Hd.
  - rewrite (collapse_dotted s Hd). repeat split; try done.
    intros s' _ Hd' Hn. rewrite Hd', <- Hn. by rewrite (collapse_dotted s Hd).
  - repeat split; try done.
Qed.

Lemma endswith_split sep a :
  Str.endswith sep a = true -> exists a0, a = a0 +:+ String sep EmptyString.
Proof.
  induction a as [| c a IH]; [done |]. cbn.
  destruct a as [| c' a'].
  - intros Hc. apply Ascii.eqb_eq in Hc as ->. by exists EmptyString.
  - intros H. destruct (IH H) as (a0 & Ha0). exists (String c a0).
    rewrite append_cons. by rewrite <- Ha0.
Qed.

Lemma append_assoc (a b c : string) : (a +:+ b) +:+ c = a +:+ (b +:+ c).
Proof.
  induction a as [| x a IH]; [reflexivity |].
  rewrite !append_cons. by rewrite IH.
Qed.

(** Joining a component to a path string adds that component to the parsed
    path, whatever slashes the string has. *)
Lemma tail_join2 a x :
  Str.nonempty x = true -> x <> "." ->
  Str.contains posixpath.sep x = false ->
  p_tail (pathlib.of_str (posixpath.join2 a x))
    = p_tail (pathlib.of_str a) ++ [x].
Proof.
  intros Hne Hdot Hsep.
  assert (filter keeps [x] = [x]) as Hx.
  { apply filter_keeps_all. by repeat constructor. }
  assert (Str.startswith posixpath.sep x = false) as Hst.
  { destruct x as [| c x]; [done |]. cbn in *.
    by apply orb_false_iff in Hsep as [-> _]. }
  unfold posixpath.join2. rewrite Hst. rewrite !tail_of_str.
  destruct (Str.nonempty a) eqn:Ha; cbn [negb orb].
  - destruct (Str.endswith posixpath.sep a) eqn:He.
    + destruct (endswith_split _ _ He) as (a0 & ->).
      rewrite append_assoc.
      change (String posixpath.sep EmptyString +:+ x)
        with (String posixpath.sep x).
      rewrite !split_app_sep, !filter_app.
      rewrite (split_without_sep _ x Hsep). rewrite Hx. cbn.
      by rewrite app_nil_r.
    + change (a +:+ "/" +:+ x) with (a +:+ String posixpath.sep x).
      rewrite split_app_sep, filter_app.
      rewrite (split_without_sep _ x Hsep). by rewrite Hx.
  - destruct a; [| done].
    change (EmptyString +:+ x) with x.
    rewrite (split_without_sep _ x Hsep). by rewrite Hx.
Qed.

Lemma bundle_paths self :
  os_path (posixpath.join (name self) ["Contents"; "Resources"])
    = fs_of (resources_path self)
  /\ fs_of (resources_path self)
     = os_path (name self) ++ ["Contents"; "Resources"]
  /\ fs_of (macos_path self) = os_path (name self) ++ ["Contents"; "MacOS"]
  /\ fs_of (frameworks_path self)
     = os_path (name self) ++ ["Contents"; "Frameworks"]
  /\ os_path (posixpath.join (name self) ["Contents"; "Info.plist"])
     = os_path (name self) ++ ["Contents"; "Info.plist"].
Proof.
  unfold os_path, posixpath.join. cbn [fold_left].
  rewrite !tail_join2 by done.
  unfold resources_path, macos_path, frameworks_path, fs_of, pathlib.joinpath.
  cbn. rewrite <- !app_assoc. done.
Qed.

(** The paths [assemble] builds as strings with [os.path.join] and those it
    builds with [Path(...)] name the same places: the icon is copied into
    the directory the data path fills, and [Info.plist] lies in [Contents]
    beside the three directories, for every bundle name. *)
Theorem joined_paths_agree :
  forall self,
    os_path (posixpath.join (name self) ["Contents"; "Resources"])
      = fs_of (resources_path self)
    /\ fs_of (resources_path self)
       = os_path (name self) ++ ["Contents"; "Resources"]
    /\ fs_of (macos_path self) = os_path (name self) ++ ["Contents"; "MacOS"]
    /\ fs_of (frameworks_path self)
       = os_path (name self) ++ ["Contents"; "Frameworks"]
    /\ os_path (posixpath.join (name self) ["Contents"; "Info.plist"])
       = os_path (name self) ++ ["Contents"; "Info.plist"].
Proof. exact bundle_paths. Qed.

(** * Further properties of the placement engine *)

Lemma extends_insert_new (fs : gmap fspath node) q n :
  fs !! q = None -> extends fs (<[q := n]> fs).
Proof. intros Hq. by apply subseteq_extends, insert_subseteq. Qed.

(** Whatever [open(dst, 'wb')] does, nothing that was in the store goes. *)
Lemma open_write_extends dst c s o s' :
  open_write dst c s = (o, s') ->
  extends (files s) (files s') /\ log s' = log s.
Proof.
  unfold open_write, bind, get_files, put_file, raise. cbn [files log].
  destruct (resolve (files s) true dst) as [q [c0 | | t] | q | e] eqn:Hr;
    intros [= <- <-]; cbn [files log]; split; try done;
    try apply extends_refl.
  - apply insert_file_extends. right. exists c0.
    eapply resolve_found_lookup; eauto.
  - apply extends_insert_new. eapply resolve_missing_None; eauto.
Qed.

Lemma shutil_copy_extends src dst s o s' :
  shutil_copy src dst s = (o, s') ->
  extends (files s) (files s') /\ log s' = log s.
Proof.
  unfold shutil_copy, bind at 1. rewrite os_path_isdir_eq.
  set (d := if is_dir (files s) dst then _ else dst). clearbody d.
  unfold bind at 1, shutil_copyfile, bind at 1, get_files.
  destruct (samefile (files s) src d).
  { unfold raise. intros [= <- <-]. split; [apply extends_refl | done]. }
  unfold bind at 1, open_read, bind at 1, get_files.
  destruct (resolve (files s) true src) as [qs [c | | t] | qs | e];
    unfold raise, ret; try (intros [= <- <-]; split; [apply extends_refl | done]).
  destruct (open_write d c s) as [[[] | e] s1] eqn:Hw;
    intros [= <- <-]; eapply open_write_extends; eauto.
Qed.

Lemma os_symlink_mono target link s o s' :
  os_symlink target link s = (o, s') ->
  files s ⊆ files s' /\ log s' = log s.
Proof.
  unfold os_symlink, bind, get_files, put_file, raise. cbn [files log].
  destruct (resolve (files s) false link) as [q n | q | e] eqn:Hr;
    intros [= <- <-]; cbn [files log]; split; try done.
  apply insert_subseteq. eapply resolve_missing_None; eauto.
Qed.

Lemma copy_step_extends src dst s o s' :
  copy_step src dst s = (o, s') ->
  extends (files s) (files s') /\ log s' = log s.
Proof.
  unfold copy_step, bind at 1, Path_exists. rewrite os_path_exists_eq.
  unfold bind at 1.
  destruct ((if negb (exists_ (files s) (fs_of dst))
             then make_room dst else ret tt) s) as [[[] | e] s1] eqn:H1.
  - assert (files s ⊆ files s1 /\ log s1 = log s) as [Hsub Hlog].
    { destruct (negb _); [eapply make_room_mono; eauto |].
      unfold ret in H1. by injection H1 as <-. }
    intros H. apply shutil_copy_extends in H as [Hext Hl].
    split; [| congruence].
    eapply extends_trans; [apply subseteq_extends, Hsub | exact Hext].
  - intros [= <- <-].
    destruct (negb _); [| discriminate H1].
    apply make_room_mono in H1 as [Hsub Hlog].
    split; [by apply subseteq_extends | done].
Qed.

Lemma link_step_mono macos_dst target s o s' :
  link_step macos_dst target s = (o, s') ->
  files s ⊆ files s' /\ log s' = log s.
Proof.
  unfold link_step, bind at 1, Path_exists. rewrite os_path_exists_eq.
  destruct (negb (exists_ (files s) (fs_of macos_dst)));
    [| by intros [= <- <-]].
  unfold bind.
  destruct (make_room macos_dst s) as [[[] | e] s1] eqn:H1;
    apply make_room_mono in H1 as [Hsub Hlog].
  - intros H. apply os_symlink_mono in H as [Hsub2 Hl].
    split; [by etrans | congruence].
  - by intros [= <- <-].
Qed.

(** A direct-path run that finds nothing at the MacOS path is a copy. *)
Lemma direct_path_unfold self inm_ src s :
  direct_path self inm_ src s =
  if exists_ (files s) (fs_of (pathlib.joinpath (macos_path self) inm_))
  then (Ok tt, s)
  else bind (copy_step src (pathlib.joinpath (macos_path self) inm_))
         (fun _ => ret tt) s.
Proof.
  unfold direct_path, copy_step, bind at 1, Path_exists.
  rewrite os_path_exists_eq.
  destruct (exists_ (files s) _) eqn:Hex; cbn [negb]; [done |].
  unfold bind. rewrite os_path_exists_eq, Hex. cbn [negb].
  destruct (make_room _ s) as [[[] | e] s1]; [| done].
  by destruct (shutil_copy _ _ s1) as [[d | e] s2].
Qed.

Section PlacementMore.

Variable add_suffix_to_extension : string -> string -> string -> entry.
Variable checkCache :
  string -> bool -> bool -> list string -> string -> option string ->
  option string -> option string -> bool -> M string.

Local Abbreviation place := (place_entry add_suffix_to_extension checkCache).
Local Abbreviation place_all_ := (place_all add_suffix_to_extension checkCache).

Lemma place_entry_direct self inm fnm typ inm' fnm' typ' :
  add_suffix_to_extension inm fnm typ = (inm', fnm', typ') ->
  classify typ' (pathlib.of_str inm') = DirectPath ->
  place self (inm, fnm, typ)
    = direct_path self (pathlib.of_str inm') (pathlib.of_str fnm').
Proof.
  intros Hadd Hc. unfold place_entry. rewrite Hadd. unfold classify in Hc.
  destruct (String.eqb typ' "EXTENSION"); [done |].
  destruct (String.eqb typ' "BINARY"); [done |].
  destruct (String.eqb typ' "DATA"); [| done].
  destruct (String.eqb (pathlib.suffix (pathlib.of_str inm')) ".so"); done.
Qed.

(** The binary path, step by step. *)
Lemma binary_path_unfold self inm_ src typ s :
  binary_path checkCache self inm_ src typ s =
  match upx_exclude self with
  | None => (Raise (AttributeError "upx_exclude"), s)
  | Some ux =>
      bind (checkCache (pathlib.str src) (strip self) (upx self) ux
              (pathlib.str (collapse inm_)) (target_arch self)
              (codesign_identity self) (entitlements_file self)
              (String.eqb typ "EXTENSION"))
        (fun cached =>
           bind (copy_step (pathlib.of_str cached)
                   (pathlib.joinpath (frameworks_path self) (collapse inm_)))
             (fun _ =>
                link_step
                  (pathlib.joinpath (macos_path self) (collapse inm_))
                  (pathlib.joinpath (frameworks_path self) (collapse inm_)))) s
  end.
Proof.
  unfold binary_path. destruct (upx_exclude self) as [ux |]; [| done].
  unfold copy_step, link_step, bind. cbn [ret].
  match goal with |- context [checkCache ?a ?b ?c ?d ?e ?f ?g ?h ?i s] =>
    destruct (checkCache a b c d e f g h i s) as [[cached | x] sc]
  end; [| reflexivity].
  destruct (Path_exists _ sc) as [[ex | x] sx]; [| reflexivity].
  destruct (negb ex); [| reflexivity].
  destruct (make_room _ sx) as [[[] | x] sy]; reflexivity.
Qed.

(** In the direct path the first entry placed under an internal name
    stays: once one has been placed, a later direct-path entry with the same
    normalised internal name, whatever its source, changes neither the store
    nor the log. *)
Theorem direct_path_first_wins :
  forall self inm1 fnm1 typ1 inm2 fnm2 typ2 inm' fnm1' typ1' fnm2' typ2' s s1,
    add_suffix_to_extension inm1 fnm1 typ1 = (inm', fnm1', typ1') ->
    add_suffix_to_extension inm2 fnm2 typ2 = (inm', fnm2', typ2') ->
    classify typ1' (pathlib.of_str inm') = DirectPath ->
    classify typ2' (pathlib.of_str inm') = DirectPath ->
    place self (inm1, fnm1, typ1) s = (Ok tt, s1) ->
    place self (inm2, fnm2, typ2) s1 = (Ok tt, s1).
Proof.
  intros self inm1 fnm1 typ1 inm2 fnm2 typ2 inm' fnm1' typ1' fnm2' typ2' s s1
    Hadd1 Hadd2 Hc1 Hc2 Hrun.
  rewrite (place_entry_direct _ _ _ _ _ _ _ Hadd1 Hc1) in Hrun.
  rewrite (place_entry_direct _ _ _ _ _ _ _ Hadd2 Hc2).
  rewrite direct_path_unfold in Hrun. rewrite direct_path_unfold.
  destruct (exists_ (files s) _) eqn:Hex.
  - injection Hrun as <-. by rewrite Hex.
  - apply bind_Ok in Hrun as (d & s_b & Hcopy & Hret).
    unfold ret in Hret. injection Hret as <-.
    apply copy_step_Ok in Hcopy as (c & (qs & q & _ & _ & _ & _ & Hex1) & _).
    by rewrite Hex1.
Qed.

(** Placing a data-path entry again right after it was placed changes
    nothing, as soon as the MacOS path resolves. *)
Theorem data_path_again :
  forall self inm fnm typ inm' fnm' typ' s s1,
    add_suffix_to_extension inm fnm typ = (inm', fnm', typ') ->
    classify typ' (pathlib.of_str inm') = DataPath ->
    place self (inm, fnm, typ) s = (Ok tt, s1) ->
    exists_ (files s1)
      (fs_of (pathlib.joinpath (macos_path self) (pathlib.of_str inm'))) = true ->
    place self (inm, fnm, typ) s1 = (Ok tt, s1).
Proof.
  intros self inm fnm typ inm' fnm' typ' s s1 Hadd Hcl Hrun Hex.
  destruct (place_entry_data add_suffix_to_extension checkCache
              self _ _ _ _ _ _ Hadd Hcl) as [Hpl Hso].
  rewrite Hpl in Hrun |- *.
  destruct (dotted_parent (pathlib.of_str inm')) eqn:Hd.
  - unfold data_path in *. rewrite Hd in *. cbn [orb] in *.
    unfold ret in Hrun. by injection Hrun as <-.
  - rewrite (data_path_unfold _ _ _ Hd Hso) in Hrun |- *.
    apply bind_Ok in Hrun as (d & s_b & Hcopy & Hlink).
    destruct (copy_link_again _ _ _ _ _ _ _ Hcopy Hlink Hex) as [Hc2 Hl2].
    unfold bind. by rewrite Hc2.
Qed.

(** The link of the binary path: after the copy into FrameworksDir, the
    MacOS path becomes a link to the FrameworksDir path when it did not
    exist, and nothing is written when it did. *)
Theorem binary_path_links :
  forall self inm fnm typ inm' fnm' typ' s s1,
    add_suffix_to_extension inm fnm typ = (inm', fnm', typ') ->
    classify typ' (pathlib.of_str inm') = BinaryPath ->
    place self (inm, fnm, typ) s = (Ok tt, s1) ->
    let frame_dst :=
      pathlib.joinpath (frameworks_path self) (collapse (pathlib.of_str inm')) in
    let macos_dst :=
      pathlib.joinpath (macos_path self) (collapse (pathlib.of_str inm')) in
    exists cached s0 d s_b,
      copy_step (pathlib.of_str cached) frame_dst s0 = (Ok d, s_b)
      /\ link_step macos_dst frame_dst s_b = (Ok tt, s1)
      /\ (exists_ (files s_b) (fs_of macos_dst) = false ->
          lstat (files s1) (fs_of macos_dst) = Some (Link (fs_of frame_dst)))
      /\ (exists_ (files s_b) (fs_of macos_dst) = true -> s1 = s_b).
Proof.
  intros self inm fnm typ inm' fnm' typ' s s1 Hadd Hcl Hrun frame_dst macos_dst.
  rewrite (place_entry_binary _ _ _ _ _ _ _ _ _ Hadd Hcl) in Hrun.
  apply binary_path_Ok in Hrun
    as (ux & cached & s0 & d & s_b & _ & _ & Hcopy & Hlink).
  exists cached, s0, d, s_b. split; [exact Hcopy |]. split; [exact Hlink |].
  apply link_step_Ok in Hlink as (_ & _ & Hsame & Hnew).
  split; [exact Hnew | exact Hsame].
Qed.

(** A bundle whose [upx_exclude] was never assigned cannot place a binary:
    the attribute is read before the cache is asked, so the entry raises an
    [AttributeError] and nothing is written. *)
Theorem binary_path_needs_upx_exclude :
  forall self inm fnm typ inm' fnm' typ' s,
    add_suffix_to_extension inm fnm typ = (inm', fnm', typ') ->
    classify typ' (pathlib.of_str inm') = BinaryPath ->
    upx_exclude self = None ->
    place self (inm, fnm, typ) s = (Raise (AttributeError "upx_exclude"), s).
Proof.
  intros self inm fnm typ inm' fnm' typ' s Hadd Hcl Hux.
  rewrite (place_entry_binary _ _ _ _ _ _ _ _ _ Hadd Hcl).
  unfold binary_path. by rewrite Hux.
Qed.

(** The loop over the manifest composes: a manifest in two parts is placed
    part after part. *)
Lemma place_all_app self l1 l2 s :
  place_all_ self (l1 ++ l2) s
  = bind (place_all_ self l1) (fun _ => place_all_ self l2) s.
Proof.
  revert s. induction l1 as [| e l1 IH]; intros s; [done |].
  cbn [app place_all]. unfold bind.
  destruct (place self e s) as [[[] | x] s1]; [| done].
  rewrite IH. reflexivity.
Qed.

(** An entry that raises ends the loop: the exception is the result, the
    store is as that entry left it, and no later entry is looked at. *)
Lemma place_all_stops_at_failure :
  forall self l1 e l2 s s1 x s2,
    place_all_ self l1 s = (Ok tt, s1) ->
    place self e s1 = (Raise x, s2) ->
    place_all_ self (l1 ++ e :: l2) s = (Raise x, s2).
Proof.
  intros self l1 e l2 s s1 x s2 H1 He.
  rewrite place_all_app. unfold bind at 1. rewrite H1.
  cbn [place_all]. unfold bind. by rewrite He.
Qed.

(** Placement never removes anything: after any number of entries, and
    whether the loop ended normally or with an exception, every path that
    held a file, a directory or a link still holds one of the same kind
    (a link with the same target), provided the cache leaves what it finds. *)
Theorem placement_never_removes :
  forall self t s o s',
    (forall a b c d e f g h i, preserving (checkCache a b c d e f g h i)) ->
    place_all_ self t s = (o, s') ->
    extends (files s) (files s').
Proof.
  intros self t s o s' Hcache. revert s.
  assert (forall e s o s', place self e s = (o, s') ->
                           extends (files s) (files s')) as Hone.
  { intros [[inm fnm] typ] s0 o0 s0'. unfold place_entry.
    destruct (add_suffix_to_extension inm fnm typ) as [[inm' fnm'] typ'].
    destruct (_ || _).
    - rewrite binary_path_unfold.
      destruct (upx_exclude self) as [ux |];
        [| intros [= <- <-]; apply extends_refl].
      unfold bind at 1.
      match goal with |- context [checkCache ?a ?b ?c ?d ?e ?f ?g ?h ?i s0] =>
        destruct (checkCache a b c d e f g h i s0) as [[cached | x] sc] eqn:Hc;
        pose proof (Hcache a b c d e f g h i _ _ _ Hc) as Hext0
      end; [| by intros [= <- <-]].
      unfold bind.
      destruct (copy_step _ _ sc) as [[d | x] s_b] eqn:Hcopy.
      + apply copy_step_extends in Hcopy as [Hext1 _]. intros Hrest.
        apply link_step_mono in Hrest as [Hsub _].
        eapply extends_trans; [exact Hext0 |].
        eapply extends_trans; [exact Hext1 | by apply subseteq_extends].
      + intros [= <- <-]. apply copy_step_extends in Hcopy as [Hext1 _].
        eapply extends_trans; [exact Hext0 | exact Hext1].
    - destruct (String.eqb typ' "DATA").
      + destruct (dotted_parent (pathlib.of_str inm')) eqn:Hd.
        { unfold data_path. rewrite Hd. cbn [orb]. unfold ret.
          intros [= <- <-]. apply extends_refl. }
        destruct (String.eqb (pathlib.suffix (pathlib.of_str inm')) ".so") eqn:Hs.
        { unfold data_path. rewrite Hd, Hs. cbn [orb]. unfold ret.
          intros [= <- <-]. apply extends_refl. }
        rewrite (data_path_unfold _ _ _ Hd Hs). unfold bind.
        destruct (copy_step _ _ s0) as [[d | x] s_b] eqn:Hcopy.
        * apply copy_step_extends in Hcopy as [Hext1 _]. intros Hrest.
          apply link_step_mono in Hrest as [Hsub _].
          eapply extends_trans; [exact Hext1 | by apply subseteq_extends].
        * intros [= <- <-]. by apply copy_step_extends in Hcopy as [? _].
      + rewrite direct_path_unfold.
        destruct (exists_ (files s0) _);
          [intros [= <- <-]; apply extends_refl |].
        unfold bind.
        destruct (copy_step _ _ s0) as [[d | x] s_b] eqn:Hcopy;
          unfold ret; intros [= <- <-];
          by apply copy_step_extends in Hcopy as [? _]. }
  induction t as [| e t IH]; intros s.
  - cbn. unfold ret. intros [= <- <-]. apply extends_refl.
  - cbn [place_all]. unfold bind.
    destruct (place self e s) as [[[] | x] s1] eqn:He.
    + intros Hrest. eapply extends_trans; [eapply Hone; eauto | by apply IH].
    + intros [= <- <-]. eapply Hone; eauto.
Qed.

End PlacementMore.

(** * Further properties of [assemble] *)

(** A successful [open(p, 'wb')] leaves a file with the written content
    behind the path. *)
Lemma open_write_Ok p c s s1 :
  open_write p c s = (Ok tt, s1) ->
  read_file (files s1) p = Some c /\ log s1 = log s.
Proof.
  intros H. pose proof (open_write_extends _ _ _ _ _ H) as [Hext Hlog].
  split; [| exact Hlog]. revert H Hext.
  unfold open_write, bind, get_files, put_file, raise. cbn [files log].
  destruct (resolve (files s) true p) as [q [c0 | | t] | q | e] eqn:Hr;
    try discriminate; intros [= <-]; cbn [files]; intros Hext.
  - pose proof (resolve_extends _ _ true p Hext) as Hw.
    rewrite Hr in Hw. destruct Hw as (n' & Hr' & Hs & _ & Hn').
    unfold read_file, stat. rewrite Hr'.
    destruct n' as [c' | |]; try (exfalso; exact Hs).
    rewrite lookup_insert_eq in Hn'.
    assert (Some (File c) = Some (File c')) as [= <-] by (by apply Hn').
    done.
  - unfold read_file, stat.
    by rewrite (resolve_missing_insert _ _ _ _ (File c) Hr (or_intror eq_refl)).
Qed.

Lemma merge_info_plist_keeps self d k :
  is_Some (d !! k) -> is_Some (merge_info_plist self d !! k).
Proof.
  intros Hk. unfold merge_info_plist.
  destruct (info_plist self) as [ov |]; [| done].
  case_bool_decide; [done |].
  rewrite lookup_union. destruct Hk as [v ->].
  destruct (ov !! k); cbn; eauto.
Qed.

(** Whatever the [info_plist] override holds, the final descriptor has all
    eight keys of the minimal property list and the key of the conditional
    default: an override changes values, it cannot take a key away. *)
Theorem descriptor_keeps_required_keys :
  forall self icon_path exe s,
    exename self = Some exe ->
    Forall (fun k => is_Some (descriptor (info_plist_dict self icon_path s) !! k))
      (required_keys
         ++ [if console self then "LSBackgroundOnly"
             else "NSHighResolutionCapable"]).
Proof.
  intros self icon_path exe s Hexe.
  unfold info_plist_dict, bind, info_plist_defaults, descriptor.
  rewrite Hexe. cbn [ret fst].
  unfold required_keys. cbn [app].
  destruct (console self);
    repeat (constructor;
            [apply merge_info_plist_keeps; eexists; reflexivity |]);
    constructor.
Qed.

(** The descriptor reaches the disk: after [Contents/Info.plist] was
    written, reading that path gives the property list of the final
    descriptor; nothing else in the store is lost and nothing is logged. *)
Theorem info_plist_written :
  forall self icon_path s s1,
    write_info_plist self icon_path s = (Ok tt, s1) ->
    exists exe,
      exename self = Some exe
      /\ read_file (files s1) (os_path (name self) ++ ["Contents"; "Info.plist"])
         = Some (Plist (descriptor (info_plist_dict self icon_path s)))
      /\ extends (files s) (files s1)
      /\ log s1 = log s.
Proof.
  intros self icon_path s s1 H. unfold write_info_plist in H.
  apply bind_Ok in H as (d & s' & Hd & Hw).
  destruct (exename self) as [exe |] eqn:Hexe.
  - exists exe. split; [done |].
    assert (s' = s) as ->.
    { unfold info_plist_dict, bind, info_plist_defaults in Hd.
      rewrite Hexe in Hd. cbn [ret] in Hd. by injection Hd as _ <-. }
    unfold descriptor. rewrite Hd. cbn [fst].
    rewrite (proj2 (proj2 (proj2 (proj2 (bundle_paths self))))) in Hw.
    destruct (open_write_Ok _ _ _ _ Hw) as [Hread Hlog].
    destruct (open_write_extends _ _ _ _ _ Hw) as [Hext _].
    done.
  - unfold info_plist_dict, bind, info_plist_defaults in Hd.
    rewrite Hexe in Hd. discriminate Hd.
Qed.

(** A walk that finds the last component missing without following a
    final link finds it missing when following one, too. *)
Lemma walk_missing_follow fs :
  forall fuel rest cur q,
    walk fuel fs false cur rest = Missing q ->
    walk fuel fs true cur rest = Missing q.
Proof.
  induction fuel as [| f IHf];
    (induction rest as [| c r IHr]; intros cur q;
     [by rewrite !walk_nil |]);
    rewrite !walk_cons;
    (destruct (String.eqb c ".."); [apply IHr |]);
    (destruct (fs !! (cur ++ [c])) as [[x | | t] |]; [| apply IHr | |]);
    try done; destruct r; try done; apply IHf.
Qed.

Transparent resolve.

Lemma resolve_missing_follow fs p q :
  resolve fs false p = Missing q -> resolve fs true p = Missing q.
Proof. unfold resolve. apply walk_missing_follow. Qed.

Opaque resolve.

Lemma os_mkdir_Ok_is_dir p s s' :
  os_mkdir p s = (Ok tt, s') -> is_dir (files s') p = true.
Proof.
  unfold os_mkdir, bind, get_files, put_file, raise. cbn [files].
  destruct (resolve (files s) false p) as [q n | q | e] eqn:Hr; try discriminate.
  intros [= <-]. cbn [files].
  apply resolve_missing_follow in Hr.
  unfold is_dir, stat.
  by rewrite (resolve_missing_insert _ _ _ _ Dir Hr (or_intror eq_refl)).
Qed.

(** What [os.makedirs] returns normally for is a directory afterwards. *)
Lemma os_makedirs_Ok_is_dir nm ok s s' :
  os_makedirs nm ok s = (Ok tt, s') -> is_dir (files s') nm = true.
Proof.
  unfold os_makedirs. rewrite <- (rev_involutive nm) at 2.
  generalize (rev nm) as rname. intros rname H.
  assert (forall s1,
            try_except (os_mkdir (rev rname)) is_OSError
              (fun e =>
                 isd <- os_path_isdir (rev rname) ;;
                 if negb ok || negb isd then raise e else ret tt) s1
            = (Ok tt, s') ->
            is_dir (files s') (rev rname) = true) as Hlast.
  { intros s1. unfold try_except.
    destruct (os_mkdir (rev rname) s1) as [[[] | e] s2] eqn:Hm.
    - intros [= <-]. eapply os_mkdir_Ok_is_dir; eauto.
    - destruct (is_OSError e); [| discriminate].
      unfold bind. rewrite os_path_isdir_eq.
      destruct (is_dir (files s2) (rev rname)) eqn:Hd.
      + destruct (negb ok); cbn; [discriminate |]. by intros [= <-].
      + rewrite orb_true_r. discriminate. }
  destruct rname as [| tl rhead]; cbn [os_makedirs_rev] in H;
    apply bind_Ok in H as ([] & s1 & _ & H); by apply (Hlast s1).
Qed.

Lemma is_dir_extends fs fs' p :
  extends fs fs' -> is_dir fs p = true -> is_dir fs' p = true.
Proof.
  intros Hext. unfold is_dir, stat.
  pose proof (resolve_extends _ _ true p Hext) as Hw.
  destruct (resolve fs true p) as [q [c | | t] | q | e]; try done.
  destruct Hw as (n' & -> & Hs & _). by destruct n'.
Qed.

Section Assembling.

Variable CONF : config.
Variable _check_path_overlap : string -> M bool.
Variable _rmtree : string -> M unit.
Variable normalize_icon_type :
  string -> list string -> string -> string -> M string.
Variable abspath : string -> string.
Variable add_suffix_to_extension : string -> string -> string -> entry.
Variable checkCache :
  string -> bool -> bool -> list string -> string -> option string ->
  option string -> option string -> bool -> M string.
Variable sign_binary :
  string -> option string -> option string -> bool -> M unit.

Local Abbreviation scaffold_ :=
  (scaffold CONF _check_path_overlap _rmtree normalize_icon_type abspath).
Local Abbreviation assemble_unsigned_ :=
  (assemble_unsigned CONF _check_path_overlap _rmtree normalize_icon_type
     abspath add_suffix_to_extension checkCache).
Local Abbreviation assemble_ :=
  (assemble CONF _check_path_overlap _rmtree normalize_icon_type abspath
     add_suffix_to_extension checkCache sign_binary).

(** When the scaffolding succeeds the three directories of the skeleton
    exist and the icon lies in [Resources] under its own base name, provided
    the icon converter leaves in place what it finds. *)
Theorem scaffold_builds_skeleton :
  forall self s icon_path s1,
    preserving (normalize_icon_type (icon self) ["icns"] "icns" (workpath CONF)) ->
    scaffold_ self s = (Ok icon_path, s1) ->
    is_dir (files s1) (fs_of (macos_path self)) = true
    /\ is_dir (files s1) (fs_of (resources_path self)) = true
    /\ is_dir (files s1) (fs_of (frameworks_path self)) = true
    /\ exists c,
         read_file (files s1)
           (fs_of (resources_path self)
              ++ [List.last (os_path icon_path) EmptyString]) = Some c.
Proof.
  intros self s icon_path s1 Hicon H. unfold scaffold in H.
  apply bind_Ok in H as (ov & sa & _ & H).
  apply bind_Ok in H as (isd & sb & _ & H).
  apply bind_Ok in H as ([] & sc & _ & H).
  apply bind_Ok in H as ([] & sd & _ & H).
  apply bind_Ok in H as ([] & m1 & Hm1 & H).
  apply bind_Ok in H as ([] & m2 & Hm2 & H).
  apply bind_Ok in H as ([] & m3 & Hm3 & H).
  apply bind_Ok in H as (icon1 & sn & Hn & H).
  apply bind_Ok in H as (d & sx & Hcopy & H).
  unfold ret in H. injection H as <- <-.
  pose proof (os_makedirs_Ok_is_dir _ _ _ _ Hm1) as D1.
  pose proof (os_makedirs_Ok_is_dir _ _ _ _ Hm2) as D2.
  pose proof (os_makedirs_Ok_is_dir _ _ _ _ Hm3) as D3.
  apply os_makedirs_mono in Hm2 as [S2 _].
  apply os_makedirs_mono in Hm3 as [S3 _].
  apply Hicon in Hn.
  assert (extends (files m3) (files sn)) as E3 by exact Hn.
  assert (extends (files m2) (files sn)) as E2
    by (eapply extends_trans; [apply subseteq_extends, S3 | exact E3]).
  assert (extends (files m1) (files sn)) as E1
    by (eapply extends_trans; [apply subseteq_extends, S2 | exact E2]).
  pose proof (is_dir_extends _ _ _ E1 D1) as N1.
  pose proof (is_dir_extends _ _ _ E2 D2) as N2.
  pose proof (is_dir_extends _ _ _ E3 D3) as N3.
  destruct (shutil_copy_extends _ _ _ _ _ Hcopy) as [Ec _].
  split; [exact (is_dir_extends _ _ _ Ec N1) |].
  split; [exact (is_dir_extends _ _ _ Ec N2) |].
  split; [exact (is_dir_extends _ _ _ Ec N3) |].
  rewrite (proj1 (bundle_paths self)) in Hcopy.
  assert (copy_step (mkPath EmptyString (os_path (abspath icon1)))
            (resources_path self) sn = (Ok d, sx)) as Hstep.
  { unfold copy_step, bind, Path_exists. rewrite os_path_exists_eq.
    assert (exists_ (files sn) (fs_of (resources_path self)) = true) as ->.
    { unfold is_dir, exists_ in *.
      by destruct (stat (files sn) (fs_of (resources_path self))). }
    exact Hcopy. }
  apply copy_step_Ok in Hstep
    as (c & (qs & q & _ & _ & Hd & Heq & _) & _).
  exists c. cbn [fs_of p_tail] in Heq.
  rewrite (is_dir_extends _ _ _ Ec N2) in Heq. subst d.
  unfold read_file, stat. by rewrite Hd.
Qed.

(** How [assemble] ends once everything is placed, by what the signer
    does: normal return gives success; an [Exception] gives success after
    two warnings; anything else raised passes through to the caller, and the
    record of completion is not written. *)
Theorem signing_outcomes :
  forall self s s_u,
    assemble_unsigned_ self s = (Ok tt, s_u) ->
    assemble_ self s =
      match sign_binary (name self) (codesign_identity self)
              (entitlements_file self) true
              (mkState (files s_u)
                 (log s_u ++ [mkLog INFO "Signing the BUNDLE..." []])) with
      | (Ok _, s_f) =>
          (Ok tt,
           mkState (files s_f)
             (log s_f ++ [mkLog INFO "Building BUNDLE %s completed successfully."
                            [ArgStr (tocbasename self)]]))
      | (Raise e, s_f) =>
          if is_Exception e
          then (Ok tt, mkState (files s_f) (log s_f ++ signing_failure_log self e))
          else (Raise e, s_f)
      end.
Proof.
  intros self s s_u Hu. unfold assemble, bind at 1. rewrite Hu.
  unfold sign_bundle, bind, logger, try_except. cbn [files log].
  destruct (sign_binary _ _ _ _ _) as [[[] | e] s_f]; [done |].
  destruct (is_Exception e); [| done].
  cbn [files log]. unfold signing_failure_log. by rewrite <- !app_assoc.
Qed.

(** An entry that raises ends the whole run: [assemble] raises the same
    exception, the store is as that entry left it, no later entry is placed
    and the signer is not run, whichever signer it is. *)
Theorem failing_entry_aborts_assemble :
  forall self l1 e l2 s icon_path s1 s2 s3 x s4,
    toc self = l1 ++ e :: l2 ->
    scaffold_ self s = (Ok icon_path, s1) ->
    write_info_plist self icon_path s1 = (Ok tt, s2) ->
    place_all add_suffix_to_extension checkCache self l1 s2 = (Ok tt, s3) ->
    place_entry add_suffix_to_extension checkCache self e s3 = (Raise x, s4) ->
    assemble_ self s = (Raise x, s4).
Proof.
  intros self l1 e l2 s icon_path s1 s2 s3 x s4 Htoc Hsc Hw Hl1 He.
  unfold assemble, assemble_unsigned, bind. rewrite Hsc, Hw, Htoc.
  by rewrite (place_all_stops_at_failure _ _ _ _ _ _ _ _ _ _ Hl1 He).
Qed.

End Assembling.

(** ** An old tree in the way *)

(** When a walk finds its last component, the components before it lead
    to a directory. *)
Lemma walk_prefix fs follow :
  forall fuel h cur c q n,
    walk fuel fs follow cur (h ++ [c]) = Found q n ->
    exists qd, walk fuel fs true cur h = Found qd Dir.
Proof.
  induction fuel as [| f IHf];
    (induction h as [| a h IHh]; intros cur c q n;
     [intros _; exists cur; apply walk_nil |]);
    change ((a :: h) ++ [c]) with (a :: (h ++ [c]));
    rewrite !walk_cons;
    (destruct (String.eqb a ".."); [apply IHh |]);
    (assert (h ++ [c] <> []) as Hne by (by destruct h));
    (destruct (fs !! (cur ++ [a])) as [[x | | t] |];
     [ destruct (h ++ [c]); [done | discriminate]
     | apply IHh
     |
     | destruct (h ++ [c]); [done | discriminate] ]).
  - destruct (h ++ [c]); [done |]. destruct follow; discriminate.
  - assert (forall (r : walk_result),
              match h ++ [c], follow with
              | [], false => Found (cur ++ [a]) (Link t)
              | _, _ => r
              end = r) as Hm by (intros r; destruct (h ++ [c]); [done |];
                                  by destruct follow).
    rewrite Hm. rewrite app_assoc. intros H. apply IHf in H as [qd Hqd].
    exists qd. by destruct h.
Qed.

Transparent resolve.

Lemma resolve_prefix_exists fs h c q n :
  resolve fs false (h ++ [c]) = Found q n -> exists_ fs h = true.
Proof.
  unfold exists_, stat, resolve. intros H.
  apply walk_prefix in H as [qd ->]. done.
Qed.

Lemma resolve_root fs follow : resolve fs follow [] = Found [] Dir.
Proof. apply walk_nil. Qed.

Opaque resolve.

(** [os.makedirs] without [exist_ok] refuses a path that is there: it
    raises [FileExistsError] and writes nothing. *)
Lemma os_makedirs_existing p s n :
  lstat (files s) p = Some n ->
  os_makedirs p false s = (Raise (OSError EEXIST), s).
Proof.
  unfold lstat. intros H.
  destruct (resolve (files s) false p) as [q n' | |] eqn:Hr; [| done | done].
  clear H. unfold os_makedirs. rewrite <- (rev_involutive p) in Hr.
  destruct (rev p) as [| tl rhead]; cbn [os_makedirs_rev].
  - unfold bind at 1. cbn [ret]. unfold try_except, os_mkdir, bind, get_files.
    cbn [rev] in *. rewrite Hr. by cbn.
  - cbn [rev] in Hr.
    unfold bind at 1, bind at 1. rewrite os_path_exists_eq.
    rewrite (resolve_prefix_exists _ _ _ _ _ Hr). cbn [negb ret].
    unfold try_except, os_mkdir, bind, get_files. cbn [rev].
    rewrite Hr. by cbn.
Qed.

Section OldTree.

Variable CONF : config.
Variable _check_path_overlap : string -> M bool.
Variable _rmtree : string -> M unit.
Variable normalize_icon_type :
  string -> list string -> string -> string -> M string.
Variable abspath : string -> string.

(** When, after the overlap check and the removal it may lead to,
    something is still at [Contents/MacOS], the scaffolding raises
    [FileExistsError] at its first [os.makedirs]: nothing is written and
    only the opening record is logged. *)
Theorem scaffold_refuses_existing_tree :
  forall self s ov s1 s2 n,
    _check_path_overlap (name self) s = (Ok ov, s1) ->
    (if ov && is_dir (files s1) (os_path (name self))
     then _rmtree (name self) s1 else (Ok tt, s1)) = (Ok tt, s2) ->
    lstat (files s2) (fs_of (macos_path self)) = Some n ->
    scaffold CONF _check_path_overlap _rmtree normalize_icon_type abspath self s
    = (Raise (OSError EEXIST),
       mkState (files s2)
         (log s2 ++ [mkLog INFO "Building BUNDLE %s" [ArgStr (tocbasename self)]])).
Proof.
  intros self s ov s1 s2 n Hov Hrm Hthere.
  unfold scaffold. unfold bind at 1. rewrite Hov.
  assert ((if ov then os_path_isdir (os_path (name self)) else ret false) s1
          = (Ok (ov && is_dir (files s1) (os_path (name self))), s1)) as Hisd.
  { destruct ov; [| done]. by rewrite os_path_isdir_eq. }
  unfold bind at 1. rewrite Hisd.
  unfold bind at 1.
  assert ((if ov && is_dir (files s1) (os_path (name self))
           then _rmtree (name self) else ret tt) s1 = (Ok tt, s2)) as ->.
  { destruct (ov && is_dir (files s1) (os_path (name self))); exact Hrm. }
  unfold bind at 1, logger.
  unfold bind at 1.
  by rewrite (os_makedirs_existing _
                (mkState (files s2)
                   (log s2 ++ [mkLog INFO "Building BUNDLE %s"
                                 [ArgStr (tocbasename self)]])) n Hthere).
Qed.

End OldTree.

(** * Worked runs *)

(** A run that returns normally, with its final state named. *)
Lemma run_eta {A} (r : outcome A * state) (a : A) :
  fst r = Ok a -> r = (Ok a, snd r).
Proof. destruct r as [o s]. cbn. by intros ->. Qed.

(** The claim that a second entry with the same internal name leaves the
    physical copy alone fails: after [libfoo.so] was placed from one source,
    placing [libfoo.so] from another source finds the destination present
    and still overwrites it. *)
Lemma C1_counterexample :
  fst (Sample.place Sample.app Sample.e_foo_a Sample.st_scaffolded) = Ok tt
  /\ exists_ (files (Sample.after Sample.e_foo_a Sample.st_scaffolded))
       (Sample.frameworks ++ ["libfoo.so"]) = true
  /\ read_file (files (Sample.after Sample.e_foo_a Sample.st_scaffolded))
       (Sample.frameworks ++ ["libfoo.so"]) = Some (Bytes "FOO-A")
  /\ fst (Sample.place Sample.app Sample.e_foo_b
            (Sample.after Sample.e_foo_a Sample.st_scaffolded)) = Ok tt
  /\ read_file
       (files (Sample.after Sample.e_foo_b
                 (Sample.after Sample.e_foo_a Sample.st_scaffolded)))
       (Sample.frameworks ++ ["libfoo.so"]) = Some (Bytes "FOO-B")
  /\ files (Sample.after Sample.e_foo_b
              (Sample.after Sample.e_foo_a Sample.st_scaffolded))
     <> files (Sample.after Sample.e_foo_a Sample.st_scaffolded).
Proof.
  assert (read_file
       (files (Sample.after Sample.e_foo_b
                 (Sample.after Sample.e_foo_a Sample.st_scaffolded)))
       (Sample.frameworks ++ ["libfoo.so"]) = Some (Bytes "FOO-B")) as HB
    by (vm_compute; reflexivity).
  assert (read_file (files (Sample.after Sample.e_foo_a Sample.st_scaffolded))
       (Sample.frameworks ++ ["libfoo.so"]) = Some (Bytes "FOO-A")) as HA
    by (vm_compute; reflexivity).
  split; [vm_compute; reflexivity |]. split; [vm_compute; reflexivity |].
  split; [exact HA |]. split; [vm_compute; reflexivity |].
  split; [exact HB |].
  intros Heq. rewrite Heq in HB. rewrite HA in HB. discriminate HB.
Qed.

Lemma C1_witness :
  classify "BINARY" (pathlib.of_str "libfoo.so") = BinaryPath
  /\ place_entry Sample.add_suffix_to_extension Sample.checkCache Sample.app
       ("libfoo.so", "/build/a/libfoo.so", "BINARY")
       (snd (place_entry Sample.add_suffix_to_extension Sample.checkCache
               Sample.app ("libfoo.so", "/build/a/libfoo.so", "BINARY")
               Sample.st_scaffolded))
     = (Ok tt,
        snd (place_entry Sample.add_suffix_to_extension Sample.checkCache
               Sample.app ("libfoo.so", "/build/a/libfoo.so", "BINARY")
               Sample.st_scaffolded)).
Proof.
  assert (classify "BINARY" (pathlib.of_str "libfoo.so") = BinaryPath) as Hcl
    by (vm_compute; reflexivity).
  split; [exact Hcl |].
  refine (proj2 (C1_binary_path_copies_always_links_once
    Sample.add_suffix_to_extension Sample.checkCache Sample.app
    "libfoo.so" "/build/a/libfoo.so" "BINARY"
    "libfoo.so" "/build/a/libfoo.so" "BINARY"
    Sample.st_scaffolded _ eq_refl Hcl (run_eta _ tt _)) _ _).
  - vm_compute; reflexivity.
  - intros ux cached s0 Hux Hc. unfold Sample.checkCache, ret in *.
    injection Hc as <- _. reflexivity.
  - vm_compute; reflexivity.
Defined.




Lemma C5_witness :
  exename Sample.app = Some "/build/myapp"
  /\ exists d0,
       info_plist_defaults Sample.app "/x/icon.icns" Sample.s0 = (Ok d0, Sample.s0)
       /\ d0 !! "LSBackgroundOnly" = Some (PBool true)
       /\ d0 !! "NSHighResolutionCapable" = None.
Proof.
  split; [reflexivity |].
  destruct (C5_overrides_win Sample.app "/x/icon.icns" "/build/myapp"
              Sample.s0 eq_refl) as (d0 & Hd0 & _ & Hbg & Hhr & _).
  exists d0. split; [exact Hd0 |]. split; [exact Hbg | exact Hhr].
Defined.

Lemma C6_witness :
  is_Exception (OtherException "codesign failed") = true
  /\ fst (assemble Sample.conf Sample.check_path_overlap Sample.rmtree
            Sample.normalize_icon_type Sample.abspath
            Sample.add_suffix_to_extension Sample.checkCache Sample.sign_fails
            Sample.app Sample.s0) = Ok tt.
Proof.
  split; [reflexivity |].
  rewrite (proj1 (C6_signing_failure_is_a_warning
    Sample.conf Sample.check_path_overlap Sample.rmtree
    Sample.normalize_icon_type Sample.abspath Sample.add_suffix_to_extension
    Sample.checkCache Sample.sign_fails Sample.app Sample.s0 _
    (OtherException "codesign failed") _
    (run_eta
       (assemble_unsigned Sample.conf Sample.check_path_overlap Sample.rmtree
          Sample.normalize_icon_type Sample.abspath
          Sample.add_suffix_to_extension Sample.checkCache Sample.app Sample.s0)
       tt ltac:(vm_compute; reflexivity)) eq_refl eq_refl)).
  reflexivity.
Defined.

Lemma C7_witness :
  dotted_parent (pathlib.of_str "lib/python3.9/libfoo.so") = true
  /\ read_file (files (Sample.after Sample.e_foo_deep Sample.st_scaffolded))
       (Sample.frameworks ++ ["libfoo.so"]) = Some (Bytes "FOO-A")
  /\ fs_of (pathlib.joinpath (frameworks_path Sample.app)
              (collapse (pathlib.of_str "lib/python3.9/libfoo.so")))
     = fs_of (frameworks_path Sample.app) ++ ["libfoo.so"].
Proof.
  split; [vm_compute; reflexivity |].
  destruct (C7_dotted_parent_flattens
    Sample.add_suffix_to_extension Sample.checkCache Sample.app
    "lib/python3.9/libfoo.so" "/build/a/libfoo.so" "BINARY"
    "lib/python3.9/libfoo.so" "/build/a/libfoo.so" "BINARY"
    eq_refl ltac:(vm_compute; reflexivity)) as (Hflat & _ & _).
  split; [vm_compute; reflexivity |].
  apply Hflat. vm_compute; reflexivity.
Defined.

(** The identifier keeps a colon that any stripping of unsafe characters
    would have removed. *)
Lemma C8_counterexample :
  bundle_identifier
    <$> built (Sample.init [] (Sample.kws "out/My:App.app") Sample.s0)
    = Some "My:App"
  /\ strip_unsafe
       <$> (appname
              <$> built (Sample.init [] (Sample.kws "out/My:App.app") Sample.s0))
     = Some "MyApp".
Proof. split; vm_compute; reflexivity. Qed.

Lemma C8_witness :
  kw_name (Sample.kws "out/My:App.app") = Some "out/My:App.app"
  /\ truthy (kw_bundle_identifier (Sample.kws "out/My:App.app")) = false
  /\ exists b s',
       Sample.init [] (Sample.kws "out/My:App.app") Sample.s0 = (Ok (Some b), s')
       /\ appname b = "My:App"
       /\ bundle_identifier b = appname b.
Proof.
  split; [reflexivity |]. split; [reflexivity |].
  exact (C8_identifier_defaults_to_appname
    Sample.conf Sample.module_file Sample.toc_basename
    [] (Sample.kws "out/My:App.app") "out/My:App.app" Sample.s0
    eq_refl eq_refl).
Defined.

(** An EXECUTABLE entry whose internal name is not the base name of its
    source: the descriptor records the latter. *)
Lemma C9_counterexample :
  descriptor
    (info_plist_dict
       (Sample.from_toc [("bin/launcher", "/build/myapp", "EXECUTABLE")])
       "/x/icon.icns" Sample.s0) !! "CFBundleExecutable"
    = Some (PStr "myapp")
  /\ descriptor
       (info_plist_dict
          (Sample.from_toc [("bin/launcher", "/build/myapp", "EXECUTABLE")])
          "/x/icon.icns" Sample.s0) !! "CFBundleExecutable"
     <> Some (PStr "bin/launcher")
  /\ fst (Sample.init [ArgTOC [("bin/launcher", "/build/myapp", "EXECUTABLE")]]
            (Sample.kws "My.app") Sample.s0)
     = Ok (Some (Sample.from_toc [("bin/launcher", "/build/myapp", "EXECUTABLE")])).
Proof.
  assert (descriptor
    (info_plist_dict
       (Sample.from_toc [("bin/launcher", "/build/myapp", "EXECUTABLE")])
       "/x/icon.icns" Sample.s0) !! "CFBundleExecutable"
    = Some (PStr "myapp")) as H by (vm_compute; reflexivity).
  split; [exact H |]. split; [| vm_compute; reflexivity].
  rewrite H. discriminate.
Qed.

Lemma C9_witness :
  kw_name (Sample.kws "My.app") = Some "My.app"
  /\ Forall not_executable [Sample.e_foo_a]
  /\ exists b s',
       Sample.init
         [ArgTOC [Sample.e_foo_a; ("bin/launcher", "/build/myapp", "EXECUTABLE")]]
         (Sample.kws "My.app") Sample.s0 = (Ok (Some b), s')
       /\ descriptor (info_plist_dict b "/x/icon.icns" Sample.s0)
            !! "CFBundleExecutable" = Some (PStr "myapp").
Proof.
  assert (Forall not_executable [Sample.e_foo_a]) as Hno
    by (repeat constructor; discriminate).
  split; [reflexivity |]. split; [exact Hno |].
  destruct (C9_executable_key_is_source_basename
    Sample.conf Sample.module_file Sample.toc_basename
    [ArgTOC [Sample.e_foo_a; ("bin/launcher", "/build/myapp", "EXECUTABLE")]]
    (Sample.kws "My.app") "My.app" Sample.s0
    [Sample.e_foo_a] "bin/launcher" "/build/myapp" []
    eq_refl eq_refl Hno) as (b & s' & Hinit & Hd).
  exists b, s'. split; [exact Hinit |].
  destruct (Hd "/x/icon.icns" Sample.s0) as (d & Hrun & Hkey).
  unfold descriptor. rewrite Hrun. cbn [fst].
  apply Hkey. intros ov Hov. discriminate Hov.
Defined.


(** ** Worked runs for the further properties *)

Lemma run_eta_raise {A} (r : outcome A * state) (x : exn) :
  fst r = Raise x -> r = (Raise x, snd r).
Proof. destruct r as [o s]. cbn. by intros ->. Qed.

Lemma last_descriptor_wins_witness :
  kw_name (Sample.kws "My.app") = Some "My.app"
  /\ exists b s',
       BUNDLE___init__ Sample.conf Sample.module_file Sample.toc_basename true
         [ArgTOC [Sample.e_foo_a]; ArgCOLLECT sample_collect;
          ArgTOC [Sample.e_readme]; ArgOther "Tree"]
         (Sample.kws "My.app") Sample.s0 = (Ok (Some b), s')
       /\ settings_of b
          = mkSettings true false (Some ["vcruntime"]) false (Some "arm64")
              (Some "Developer ID") None.
Proof.
  split; [reflexivity |].
  destruct (last_descriptor_wins Sample.conf Sample.module_file
    Sample.toc_basename
    [ArgTOC [Sample.e_foo_a]; ArgCOLLECT sample_collect;
     ArgTOC [Sample.e_readme]; ArgOther "Tree"]
    (Sample.kws "My.app") "My.app" Sample.s0 eq_refl)
    as (b & s' & Hinit & Hlast & _).
  exists b, s'. split; [exact Hinit |].
  apply (Hlast [ArgTOC [Sample.e_foo_a]] (ArgCOLLECT sample_collect)
           [ArgTOC [Sample.e_readme]; ArgOther "Tree"]);
    [reflexivity | reflexivity | repeat constructor].
Defined.

Lemma appname_from_name_witness :
  kw_name (Sample.kws "out/My.Tool.app") = Some "out/My.Tool.app"
  /\ exists b s',
       BUNDLE___init__ Sample.conf Sample.module_file Sample.toc_basename true
         [] (Sample.kws "out/My.Tool.app") Sample.s0 = (Ok (Some b), s')
       /\ name b = posixpath.join2 (distpath Sample.conf)
                     (posixpath.basename "out/My.Tool.app")
       /\ Str.contains posixpath.sep (appname b) = false.
Proof.
  split; [reflexivity |].
  destruct (appname_from_name Sample.conf Sample.module_file
    Sample.toc_basename [] (Sample.kws "out/My.Tool.app") "out/My.Tool.app"
    Sample.s0 eq_refl) as (b & s' & Hinit & Hname & _ & Hsep & _).
  exists b, s'. split; [exact Hinit |]. split; [exact Hname | exact Hsep].
Defined.

Lemma direct_path_first_wins_witness :
  classify "EXECUTABLE" (pathlib.of_str "myapp") = DirectPath
  /\ classify "OTHER" (pathlib.of_str "myapp") = DirectPath
  /\ place_entry Sample.add_suffix_to_extension Sample.checkCache Sample.app
       ("myapp", "/build/readme.txt", "OTHER")
       (snd (place_entry Sample.add_suffix_to_extension Sample.checkCache
               Sample.app ("myapp", "/build/myapp", "EXECUTABLE")
               Sample.st_scaffolded))
     = (Ok tt,
        snd (place_entry Sample.add_suffix_to_extension Sample.checkCache
               Sample.app ("myapp", "/build/myapp", "EXECUTABLE")
               Sample.st_scaffolded)).
Proof.
  assert (classify "EXECUTABLE" (pathlib.of_str "myapp") = DirectPath) as H1
    by (vm_compute; reflexivity).
  assert (classify "OTHER" (pathlib.of_str "myapp") = DirectPath) as H2
    by (vm_compute; reflexivity).
  split; [exact H1 |]. split; [exact H2 |].
  refine (direct_path_first_wins
    Sample.add_suffix_to_extension Sample.checkCache Sample.app
    "myapp" "/build/myapp" "EXECUTABLE" "myapp" "/build/readme.txt" "OTHER"
    "myapp" "/build/myapp" "EXECUTABLE" "/build/readme.txt" "OTHER"
    Sample.st_scaffolded _ eq_refl eq_refl H1 H2 (run_eta _ tt _)).
  vm_compute; reflexivity.
Defined.

Lemma data_path_again_witness :
  classify "DATA" (pathlib.of_str "data/readme.txt") = DataPath
  /\ place_entry Sample.add_suffix_to_extension Sample.checkCache Sample.app
       ("data/readme.txt", "/build/readme.txt", "DATA")
       (snd (place_entry Sample.add_suffix_to_extension Sample.checkCache
               Sample.app ("data/readme.txt", "/build/readme.txt", "DATA")
               Sample.st_scaffolded))
     = (Ok tt,
        snd (place_entry Sample.add_suffix_to_extension Sample.checkCache
               Sample.app ("data/readme.txt", "/build/readme.txt", "DATA")
               Sample.st_scaffolded)).
Proof.
  assert (classify "DATA" (pathlib.of_str "data/readme.txt") = DataPath) as Hcl
    by (vm_compute; reflexivity).
  split; [exact Hcl |].
  refine (data_path_again
    Sample.add_suffix_to_extension Sample.checkCache Sample.app
    "data/readme.txt" "/build/readme.txt" "DATA"
    "data/readme.txt" "/build/readme.txt" "DATA"
    Sample.st_scaffolded _ eq_refl Hcl (run_eta _ tt _) _).
  - vm_compute; reflexivity.
  - vm_compute; reflexivity.
Defined.

Lemma binary_path_links_witness :
  classify "BINARY" (pathlib.of_str "libfoo.so") = BinaryPath
  /\ exists s_b,
       link_step
         (pathlib.joinpath (macos_path Sample.app)
            (collapse (pathlib.of_str "libfoo.so")))
         (pathlib.joinpath (frameworks_path Sample.app)
            (collapse (pathlib.of_str "libfoo.so"))) s_b
       = (Ok tt,
          snd (place_entry Sample.add_suffix_to_extension Sample.checkCache
                 Sample.app ("libfoo.so", "/build/a/libfoo.so", "BINARY")
                 Sample.st_scaffolded)).
Proof.
  assert (classify "BINARY" (pathlib.of_str "libfoo.so") = BinaryPath) as Hcl
    by (vm_compute; reflexivity).
  split; [exact Hcl |].
  destruct (binary_path_links
    Sample.add_suffix_to_extension Sample.checkCache Sample.app
    "libfoo.so" "/build/a/libfoo.so" "BINARY"
    "libfoo.so" "/build/a/libfoo.so" "BINARY"
    Sample.st_scaffolded
    (snd (place_entry Sample.add_suffix_to_extension Sample.checkCache
            Sample.app ("libfoo.so", "/build/a/libfoo.so", "BINARY")
            Sample.st_scaffolded))
    eq_refl Hcl
    (run_eta
       (place_entry Sample.add_suffix_to_extension Sample.checkCache
          Sample.app ("libfoo.so", "/build/a/libfoo.so", "BINARY")
          Sample.st_scaffolded) tt ltac:(vm_compute; reflexivity)))
    as (cached & s0 & d & s_b & _ & Hlink & _).
  exists s_b. exact Hlink.
Defined.

Lemma binary_path_needs_upx_exclude_witness :
  classify "BINARY" (pathlib.of_str "libfoo.so") = BinaryPath
  /\ upx_exclude (Sample.from_toc [Sample.e_exe; Sample.e_foo_a]) = None
  /\ place_entry Sample.add_suffix_to_extension Sample.checkCache
       (Sample.from_toc [Sample.e_exe; Sample.e_foo_a])
       ("libfoo.so", "/build/a/libfoo.so", "BINARY") Sample.st_scaffolded
     = (Raise (AttributeError "upx_exclude"), Sample.st_scaffolded).
Proof.
  assert (classify "BINARY" (pathlib.of_str "libfoo.so") = BinaryPath) as Hcl
    by (vm_compute; reflexivity).
  split; [exact Hcl |]. split; [reflexivity |].
  exact (binary_path_needs_upx_exclude
    Sample.add_suffix_to_extension Sample.checkCache
    (Sample.from_toc [Sample.e_exe; Sample.e_foo_a])
    "libfoo.so" "/build/a/libfoo.so" "BINARY"
    "libfoo.so" "/build/a/libfoo.so" "BINARY"
    Sample.st_scaffolded eq_refl Hcl eq_refl).
Defined.

Lemma placement_never_removes_witness :
  extends (files Sample.st_scaffolded)
    (files (snd (place_all Sample.add_suffix_to_extension Sample.checkCache
                   Sample.app
                   [Sample.e_exe; Sample.e_foo_a; Sample.e_foo_b;
                    Sample.e_readme]
                   Sample.st_scaffolded))).
Proof.
  refine (placement_never_removes
    Sample.add_suffix_to_extension Sample.checkCache Sample.app
    [Sample.e_exe; Sample.e_foo_a; Sample.e_foo_b; Sample.e_readme]
    Sample.st_scaffolded
    (fst (place_all Sample.add_suffix_to_extension Sample.checkCache
            Sample.app
            [Sample.e_exe; Sample.e_foo_a; Sample.e_foo_b; Sample.e_readme]
            Sample.st_scaffolded)) _ _ _).
  - intros a b c d e f g h i s o s' H.
    unfold Sample.checkCache, ret in H. injection H as _ <-.
    apply extends_refl.
  - apply surjective_pairing.
Defined.

Lemma descriptor_keeps_required_keys_witness :
  exename Sample.app = Some "/build/myapp"
  /\ Forall
       (fun k =>
          is_Some (descriptor
                     (info_plist_dict Sample.app "/x/icon.icns" Sample.s0) !! k))
       (required_keys
          ++ [if console Sample.app then "LSBackgroundOnly"
              else "NSHighResolutionCapable"]).
Proof.
  exact (conj eq_refl
    (descriptor_keeps_required_keys Sample.app "/x/icon.icns" "/build/myapp"
       Sample.s0 eq_refl)).
Defined.

Lemma info_plist_written_witness :
  fst (write_info_plist Sample.app "/x/icon.icns" Sample.st_scaffolded) = Ok tt
  /\ read_file
       (files (snd (write_info_plist Sample.app "/x/icon.icns"
                      Sample.st_scaffolded)))
       (os_path (name Sample.app) ++ ["Contents"; "Info.plist"])
     = Some (Plist (descriptor
                      (info_plist_dict Sample.app "/x/icon.icns"
                         Sample.st_scaffolded))).
Proof.
  assert (fst (write_info_plist Sample.app "/x/icon.icns" Sample.st_scaffolded)
          = Ok tt) as H by (vm_compute; reflexivity).
  split; [exact H |].
  destruct (info_plist_written Sample.app "/x/icon.icns" Sample.st_scaffolded _
              (run_eta _ tt H)) as (exe & _ & Hread & _).
  exact Hread.
Defined.

Lemma scaffold_builds_skeleton_witness :
  is_dir
    (files (snd (scaffold Sample.conf Sample.check_path_overlap Sample.rmtree
                   Sample.normalize_icon_type Sample.abspath Sample.app
                   Sample.s0)))
    (fs_of (macos_path Sample.app)) = true.
Proof.
  refine (proj1 (scaffold_builds_skeleton
    Sample.conf Sample.check_path_overlap Sample.rmtree
    Sample.normalize_icon_type Sample.abspath Sample.app Sample.s0
    "/pyi/PyInstaller/bootloader/images/icon-windowed.icns" _ _
    (run_eta _ _ _))).
  - intros s o s' H. unfold Sample.normalize_icon_type, ret in H.
    injection H as _ <-. apply extends_refl.
  - vm_compute; reflexivity.
Defined.

Lemma signing_outcomes_witness :
  assemble Sample.conf Sample.check_path_overlap Sample.rmtree
    Sample.normalize_icon_type Sample.abspath Sample.add_suffix_to_extension
    Sample.checkCache sign_interrupted Sample.app Sample.s0
  = (Raise KeyboardInterrupt,
     mkState
       (files (snd (assemble_unsigned Sample.conf Sample.check_path_overlap
                      Sample.rmtree Sample.normalize_icon_type Sample.abspath
                      Sample.add_suffix_to_extension Sample.checkCache
                      Sample.app Sample.s0)))
       (log (snd (assemble_unsigned Sample.conf Sample.check_path_overlap
                    Sample.rmtree Sample.normalize_icon_type Sample.abspath
                    Sample.add_suffix_to_extension Sample.checkCache
                    Sample.app Sample.s0))
          ++ [mkLog INFO "Signing the BUNDLE..." []])).
Proof.
  exact (signing_outcomes
    Sample.conf Sample.check_path_overlap Sample.rmtree
    Sample.normalize_icon_type Sample.abspath Sample.add_suffix_to_extension
    Sample.checkCache sign_interrupted Sample.app Sample.s0 _
    (run_eta
       (assemble_unsigned Sample.conf Sample.check_path_overlap Sample.rmtree
          Sample.normalize_icon_type Sample.abspath
          Sample.add_suffix_to_extension Sample.checkCache Sample.app Sample.s0)
       tt ltac:(vm_compute; reflexivity))).
Defined.

Local Abbreviation ghost := ("ghost", "/build/ghost", "OTHER").
Local Abbreviation ghost_app :=
  (Sample.bundle [Sample.e_exe; ghost; Sample.e_readme] true).
Local Abbreviation ghost_icon :=
  "/pyi/PyInstaller/bootloader/images/icon-windowed.icns".
Local Abbreviation ghost_s1 :=
  (snd (scaffold Sample.conf Sample.check_path_overlap Sample.rmtree
          Sample.normalize_icon_type Sample.abspath ghost_app Sample.s0)).
Local Abbreviation ghost_s2 :=
  (snd (write_info_plist ghost_app ghost_icon ghost_s1)).
Local Abbreviation ghost_s3 :=
  (snd (place_all Sample.add_suffix_to_extension Sample.checkCache ghost_app
          [Sample.e_exe] ghost_s2)).
Local Abbreviation ghost_s4 :=
  (snd (place_entry Sample.add_suffix_to_extension Sample.checkCache ghost_app
          ghost ghost_s3)).

Lemma failing_entry_aborts_assemble_witness :
  assemble Sample.conf Sample.check_path_overlap Sample.rmtree
    Sample.normalize_icon_type Sample.abspath
    Sample.add_suffix_to_extension Sample.checkCache Sample.sign_ok
    ghost_app Sample.s0
  = (Raise (OSError ENOENT), ghost_s4).
Proof.
  refine (failing_entry_aborts_assemble
    Sample.conf Sample.check_path_overlap Sample.rmtree
    Sample.normalize_icon_type Sample.abspath Sample.add_suffix_to_extension
    Sample.checkCache Sample.sign_ok ghost_app
    [Sample.e_exe] ghost [Sample.e_readme]
    Sample.s0 ghost_icon ghost_s1 ghost_s2 ghost_s3 (OSError ENOENT) ghost_s4
    eq_refl (run_eta _ _ _) (run_eta _ tt _) (run_eta _ tt _)
    (run_eta_raise _ _ _)); vm_compute; reflexivity.
Defined.

Lemma scaffold_refuses_existing_tree_witness :
  scaffold Sample.conf Sample.check_path_overlap Sample.rmtree
    Sample.normalize_icon_type Sample.abspath Sample.app Sample.st_scaffolded
  = (Raise (OSError EEXIST),
     mkState (files Sample.st_scaffolded)
       (log Sample.st_scaffolded
        ++ [mkLog INFO "Building BUNDLE %s"
              [ArgStr (tocbasename Sample.app)]])).
Proof.
  refine (scaffold_refuses_existing_tree
    Sample.conf Sample.check_path_overlap Sample.rmtree
    Sample.normalize_icon_type Sample.abspath Sample.app
    Sample.st_scaffolded true Sample.st_scaffolded Sample.st_scaffolded Dir
    eq_refl _ _); vm_compute; reflexivity.
Defined.


Lemma scan_exename_iff_witness :
  scan_exename [Sample.e_foo_a; Sample.e_exe; Sample.e_readme]
  = Some "/build/myapp".
Proof.
  apply (proj1 (scan_exename_iff
                  [Sample.e_foo_a; Sample.e_exe; Sample.e_readme])).
  exists [Sample.e_foo_a], "myapp", [Sample.e_readme].
  split; [reflexivity |]. repeat constructor. vm_compute. congruence.
Defined.

Lemma collapse_spec_witness :
  dotted_parent (pathlib.of_str "PySide6/Qt/lib/QtCore.framework/Versions/A/QtCore")
  = true
  /\ collapse (pathlib.of_str "PySide6/Qt/lib/QtCore.framework/Versions/A/QtCore")
     = mkPath EmptyString ["QtCore"].
Proof.
  split; [vm_compute; reflexivity |].
  exact (proj1 (proj2 (collapse_spec
           "PySide6/Qt/lib/QtCore.framework/Versions/A/QtCore")) eq_refl).
Defined.
